(** * dotweb: the request-processing core of [server.go]

    A shallow embedding of [HttpServer.ServeHTTP], [wrapRouterHandle],
    [wrapFileHandle], [logContext], [logRequest] and
    [checkIsWebSocketRequest], with the properties of the request lifecycle
    stated over it.

    Conventions.
    - Go strings are [string]; [int]/[int64] are [Z]; [http.Header]
      (a [map[string][]string]) is a [gmap string (list string)].
    - A nil-able pointer or func is an [option].
    - A call that leaves [server.go] (pool, counters, logger, response
      methods, user callbacks) is recorded, in program order, in a trace of
      [Event]s; the values such calls return to [server.go] come from an
      [Env] record.
    - [panic]/[defer]/[recover] are modelled by a state-and-panic monad. *)

From Stdlib Require Import ZArith DecimalString.
From stdpp Require Import base gmap strings list.

Open Scope string_scope.
Open Scope list_scope.

(* ================================================================== *)
(** ** The parts of [net/http] that [server.go] touches *)

Module http.

(** [http.Request]: the fields read in [server.go]. [URL_Path] is
    [req.URL.Path]. *)
Record Request := {
  Method : string;
  Proto : string;
  ContentLength : Z;
  RequestURI : string;
  RemoteAddr : string;
  Header : gmap string (list string);
  URL_Path : string
}.

(** [Header.Get]: the first value stored under the key, or the empty
    string. Keys are kept in canonical form (["Connection"],
    ["Server"]), which is what [Get] and [Set] normalise to. *)
Definition Header_Get (h : gmap string (list string)) (key : string) : string :=
  match h !! key with
  | Some (v :: _) => v
  | _ => ""
  end.

(** [Header.Set]: replaces whatever is stored under the key. *)
Definition Header_Set (key value : string) (h : gmap string (list string))
  : gmap string (list string) :=
  <[key := [value]]> h.

(** An [http.ResponseWriter] as [server.go] sees it: its header map, the
    body written to it so far, and what an attempt to hijack the
    connection under it answers ([None]: success, [Some e]: the error). *)
Record ResponseWriter := {
  w_header : gmap string (list string);
  w_body : list string;
  w_hijack : option string
}.

Definition set_w_header (f : gmap string (list string) -> gmap string (list string))
    (w : ResponseWriter) : ResponseWriter :=
  {| w_header := f (w_header w); w_body := w_body w; w_hijack := w_hijack w |}.

(** [http.Handler.ServeHTTP]: what a downstream handler does to the
    writer it is given. *)
Definition Handler : Type := ResponseWriter -> Request -> ResponseWriter.

Record Cookie := { Name : string; Value : string; Path : string }.

Definition StatusInternalServerError : Z := 500.

End http.

(* ================================================================== *)
(** ** Constants *)

Definition DefaultGzipLevel : Z := 9.
Definition gzipScheme : string := "gzip".

(** Modelled from the spec: [HeaderServer], [DefaultServerName],
    [HeaderContentEncoding], [HeaderContentType] and [CharsetUTF8] are
    declared outside [server.go]. The spec names the response headers
    [Server] and [Content-Encoding], calls the server name fixed and the
    content type of the hijack-failure answer plain. The properties below
    use these constants by name; only that the server name is not empty
    matters. *)
Definition HeaderServer : string := "Server".
Definition DefaultServerName : string := "dotweb".
Definition HeaderContentEncoding : string := "Content-Encoding".
Definition HeaderContentType : string := "Content-Type".
Definition CharsetUTF8 : string := "text/plain; charset=utf-8".

(** Modelled from the spec: [convert.Int642String] and [convert.Int2String]
    (framework/convert, not in [server.go]) render the numeric log fields
    as text; base ten. *)
Definition Int642String (n : Z) : string := NilZero.string_of_int (Z.to_int n).
Definition Int2String (n : Z) : string := NilZero.string_of_int (Z.to_int n).

(* ================================================================== *)
(** ** Server data *)

Inductive LogLevel := LogLevel_Debug | LogLevel_Error.
Inductive LogTarget := LogTarget_HttpServer | LogTarget_HttpRequest.

(** A value handed to [panic] and returned by [recover]. *)
Definition PanicValue : Type := string.

(** [Response]: the fields [server.go] reads. Which writer the pooled
    response is bound to is kept beside it, in the request state. *)
Record Response := {
  Status : Z;
  Size : Z
}.

(** [HttpContext]: the fields [server.go] reads or assigns. [isEnd] is what
    [IsEnd()] answers; [RemoteIP] and [Url] are what the methods of these
    names answer. *)
Record HttpContext := {
  Request : http.Request;
  Response_ : Response;
  SessionID : string;
  IsWebSocket : bool;
  isEnd : bool;
  RemoteIP : string;
  Url : string
}.

(** What a user callback ([HttpHandle], [OnBeginRequest], [OnEndRequest])
    does with the context it is given: it returns, or it panics, and in
    both cases leaves the context (its response included) in some state.
    Callbacks act on the request through its context; they do not re-bind
    the pooled response to another writer. *)
Inductive Outcome :=
| Return (c : HttpContext)
| Panic (v : PanicValue) (c : HttpContext).

Definition HttpHandle : Type := HttpContext -> Outcome.

Record HttpModule := {
  OnBeginRequest : option HttpHandle;
  OnEndRequest : option HttpHandle
}.

(** [session.SessionManager], at its interface. *)
Record SessionManager := {
  CookieName : string;
  GetClientSessionID : http.Request -> string * option string;
  NewSessionID : unit -> string
}.

Record ServerConfig_ := { EnabledGzip : bool; EnabledAutoHEAD : bool }.
Record SessionConfig_ := { EnabledSession : bool }.

(** [DotWeb], the owning application: the parts the server reaches. The
    panic handler is user code like the hooks: handed the context and the
    recovered value, it returns or panics. *)
Record DotWeb := {
  Modules : list HttpModule;
  ExceptionHandler : option (HttpContext -> PanicValue -> Outcome);
  OfflineServer : http.Handler
}.

Record HttpServer := {
  router : http.Handler;
  DotApp : DotWeb;
  sessionManager : option SessionManager;
  ServerConfig : ServerConfig_;
  SessionConfig : SessionConfig_;
  offline : bool
}.

Definition IsOffline (server : HttpServer) : bool := offline server.

Definition SetOffline (server : HttpServer) (offline' : bool)
    (offlineText offlineUrl : string) : HttpServer :=
  {| router := router server; DotApp := DotApp server;
     sessionManager := sessionManager server;
     ServerConfig := ServerConfig server; SessionConfig := SessionConfig server;
     offline := offline' |}.

Definition Router (server : HttpServer) : http.Handler := router server.

Definition GetSessionManager (server : HttpServer) : option SessionManager :=
  if negb (EnabledSession (SessionConfig server)) then None
  else sessionManager server.

(* ================================================================== *)
(** ** The front door *)

Definition checkIsWebSocketRequest (req : http.Request) : bool :=
  if decide (http.Header_Get (http.Header req) "Connection" = "Upgrade")
  then true
  else false.

(** [ServeHTTP]. [DefaultServeMux] is the process-wide [http.DefaultServeMux]. *)
Definition ServeHTTP (DefaultServeMux : http.Handler) (server : HttpServer)
    (w : http.ResponseWriter) (req : http.Request) : http.ResponseWriter :=
  if checkIsWebSocketRequest req then
    DefaultServeMux w req
  else
    let w := http.set_w_header (http.Header_Set HeaderServer DefaultServerName) w in
    if IsOffline server then
      OfflineServer (DotApp server) w req
    else
      Router server w req.

(* ================================================================== *)
(** ** Access-log formatting *)

Definition logContext (ctx : option HttpContext) (timetaken : Z) : string :=
  let '(reqbytelen, resbytelen, method, proto, status, userip) :=
    match ctx with
    | Some ctx =>
        if negb (IsWebSocket ctx) then
          (Int642String (http.ContentLength (Request ctx)),
           Int642String (Size (Response_ ctx)),
           http.Method (Request ctx),
           http.Proto (Request ctx),
           Int2String (Status (Response_ ctx)),
           RemoteIP ctx)
        else
          (Int642String (http.ContentLength (Request ctx)),
           "0",
           http.Method (Request ctx),
           http.Proto (Request ctx),
           "0",
           RemoteIP ctx)
    | None => ("", "", "", "", "", "")
    end in
  let log := method +:+ " " in
  let log := log +:+ userip +:+ " " in
  let log := log +:+ proto +:+ " " in
  let log := log +:+ status +:+ " " in
  let log := log +:+ reqbytelen +:+ " " in
  let log := log +:+ resbytelen +:+ " " in
  let log := log +:+ Int642String timetaken in
  log.

Definition logRequest (req : http.Request) (timetaken : Z) : string :=
  let reqbytelen := Int642String (http.ContentLength req) in
  let resbytelen := "" in
  let method := http.Method req in
  let proto := http.Proto req in
  let status := "200" in
  let userip := http.RemoteAddr req in
  let log := method +:+ " " in
  let log := log +:+ userip +:+ " " in
  let log := log +:+ proto +:+ " " in
  let log := log +:+ status +:+ " " in
  let log := log +:+ reqbytelen +:+ " " in
  let log := log +:+ resbytelen +:+ " " in
  let log := log +:+ Int642String timetaken in
  log.

(** The line both functions build: the fields joined by single spaces. *)
Fixpoint join_spaces (fields : list string) : string :=
  match fields with
  | [] => ""
  | [f] => f
  | f :: rest => f +:+ " " +:+ join_spaces rest
  end.

(* ================================================================== *)
(** ** Calls that leave [server.go] *)

(** [server.pool.response] and [server.pool.context]. *)
Inductive PoolKind := ResponsePool | ContextPool.

(** The user-supplied functions the wrapper may invoke; a module is named
    by its position in [DotApp.Modules]. *)
Inductive Callback :=
| OnBeginRequestOf (i : nat)
| UserHandle
| OnEndRequestOf (i : nat)
| ExceptionHandlerWith (v : PanicValue).

Inductive Event :=
| PoolGet (p : PoolKind)                    (* sync.Pool.Get *)
| PoolPut (p : PoolKind)                    (* sync.Pool.Put *)
| SetHeader (key value : string)            (* httpCtx.SetHeader *)
| SetCookie (c : http.Cookie)               (* httpCtx.SetCookie *)
| Hijack                                    (* httpCtx.Hijack *)
| WriteHeader (code : Z)                    (* httpCtx.Response.WriteHeader *)
| ResponseHeaderSet (key value : string)    (* httpCtx.Response.Header().Set *)
| WriteString (body : string)               (* httpCtx.WriteString *)
| AddRequestCount (n : Z)                   (* GlobalState.AddRequestCount *)
| AddErrorCount (n : Z)                     (* GlobalState.AddErrorCount *)
| LoggerLog (msg : string) (target : LogTarget) (level : LogLevel)
| GzipClose                                 (* gzip.Writer.Close *)
| ContextRelease                            (* httpCtx.release *)
| Invoke (who : Callback).

#[global] Instance PoolKind_eq_dec : EqDecision PoolKind.
Proof. solve_decision. Defined.
#[global] Instance LogLevel_eq_dec : EqDecision LogLevel.
Proof. solve_decision. Defined.
#[global] Instance LogTarget_eq_dec : EqDecision LogTarget.
Proof. solve_decision. Defined.
#[global] Instance Cookie_eq_dec : EqDecision http.Cookie.
Proof. solve_decision. Defined.
#[global] Instance Callback_eq_dec : EqDecision Callback.
Proof. solve_decision. Defined.
#[global] Instance Event_eq_dec : EqDecision Event.
Proof. solve_decision. Defined.

(** What the pooled response writes to: the live network writer, or a
    [gzipResponseWriter] chained in front of it. *)
Inductive Writer :=
| RawWriter (w : http.ResponseWriter)
| GzipResponseWriter (w : http.ResponseWriter).

Record LogJson := {
  RequestUrl : string;
  HttpHeader : string;
  HttpBody : string
}.

(** What the code outside [server.go] answers when the wrappers call it. *)
Record Env := {
  (** [url.QueryEscape]. *)
  url_QueryEscape : string -> string;
  (** [exception.CatchError(title, target, err)]: the diagnostic string. *)
  exception_CatchError : string -> LogTarget -> PanicValue -> string;
  (** [fmt.Sprintln(httpCtx.Response.Header)]. *)
  fmt_Sprintln_Header : HttpContext -> string;
  (** [jsonutil.GetJsonString]. *)
  jsonutil_GetJsonString : LogJson -> string;
  (** [r.URL.String()]. *)
  url_String : http.Request -> string;
  (** [Response.Reset(w)]: the fields of a response just bound to [w]. *)
  Response_Reset : Writer -> Response;
  (** [httpCtx.release()]: what it leaves of the context. *)
  Context_release : HttpContext -> HttpContext;
  (** What [RemoteIP()] and [Url()] answer for a context bound to a request. *)
  remoteIP_of : http.Request -> string;
  url_of : http.Request -> string;
  (** [time.Now().Sub(startTime) / time.Millisecond] when it is evaluated. *)
  timetaken_ms : Z
}.

(** [gzip.NewWriterLevel(w, level)] of compress/gzip, as far as
    [server.go] depends on it: the error, if there is one. A level outside
    [HuffmanOnly] (-2) .. [BestCompression] (9) is refused; any other level
    gives a writer. *)
Definition gzip_NewWriterLevel (w : http.ResponseWriter) (level : Z) : option string :=
  if (level <? -2)%Z || (9 <? level)%Z
  then Some ("gzip: invalid compression level: " +:+ Int642String level)
  else None.

(** Route parameters, and [Params.ByName]. *)
Definition Params : Type := list (string * string).

Fixpoint ByName (ps : Params) (name : string) : string :=
  match ps with
  | [] => ""
  | (k, v) :: ps' => if decide (k = name) then v else ByName ps' name
  end.

(** Modelled from the spec: [HttpContext.Reset] is not in [server.go]; a
    reset overwrites every field, the session identifier is empty until
    bound and the ended flag is clear. *)
Definition HttpContext_Reset (env : Env) (res : Response) (r : http.Request)
    (params : Params) : HttpContext :=
  {| Request := r; Response_ := res; SessionID := ""; IsWebSocket := false;
     isEnd := false; RemoteIP := remoteIP_of env r; Url := url_of env r |}.

Definition set_SessionID (id : string) (c : HttpContext) : HttpContext :=
  {| Request := Request c; Response_ := Response_ c; SessionID := id;
     IsWebSocket := IsWebSocket c; isEnd := isEnd c;
     RemoteIP := RemoteIP c; Url := Url c |}.

Definition set_Response (res : Response) (c : HttpContext) : HttpContext :=
  {| Request := Request c; Response_ := res; SessionID := SessionID c;
     IsWebSocket := IsWebSocket c; isEnd := isEnd c;
     RemoteIP := RemoteIP c; Url := Url c |}.

(** Modelled from the spec: [Response.WriteHeader] and
    [HttpContext.WriteString] are not in [server.go]; the response tracks
    the emitted status code and the cumulative count of emitted bytes. *)
Definition Context_WriteHeader (code : Z) (c : HttpContext) : HttpContext :=
  set_Response {| Status := code; Size := Size (Response_ c) |} c.

Definition Context_WriteString (body : string) (c : HttpContext) : HttpContext :=
  set_Response {| Status := Status (Response_ c);
                  Size := Size (Response_ c) + Z.of_nat (String.length body) |} c.

(* ================================================================== *)
(** ** Request state, panics and [defer] *)

(** The pooled context of the request in flight (before the wrapper resets
    it: whatever its last tenant left), the writer its response is bound
    to, and the calls made so far. *)
Record State := {
  httpCtx : HttpContext;
  res_writer : Writer;
  trace : list Event
}.

Inductive Result (A : Type) :=
| Returned (a : A) (s : State)
| Panicked (v : PanicValue) (s : State).
Arguments Returned {A} a s.
Arguments Panicked {A} v s.

Definition M (A : Type) : Type := State -> Result A.

Definition state_of {A} (r : Result A) : State :=
  match r with
  | Returned _ s => s
  | Panicked _ s => s
  end.

Definition recovered {A} (r : Result A) : option PanicValue :=
  match r with
  | Returned _ _ => None
  | Panicked v _ => Some v
  end.

#[global] Instance M_ret : MRet M := fun A a s => Returned a s.

#[global] Instance M_bind : MBind M := fun A B f m s =>
  match m s with
  | Returned a s' => f a s'
  | Panicked v s' => Panicked v s'
  end.

Definition panic {A} (v : PanicValue) : M A := fun s => Panicked v s.

Definition emit (e : Event) : M unit := fun s =>
  Returned tt {| httpCtx := httpCtx s; res_writer := res_writer s;
                 trace := trace s ++ [e] |}.

Definition getCtx : M HttpContext := fun s => Returned (httpCtx s) s.

Definition getWriter : M Writer := fun s => Returned (res_writer s) s.

Definition modifyCtx (f : HttpContext -> HttpContext) : M unit := fun s =>
  Returned tt {| httpCtx := f (httpCtx s); res_writer := res_writer s;
                 trace := trace s |}.

Definition setWriter (w : Writer) : M unit := fun s =>
  Returned tt {| httpCtx := httpCtx s; res_writer := w; trace := trace s |}.

(** Calling a user callback on the context. *)
Definition invoke (who : Callback) (h : HttpHandle) : M unit := fun s =>
  let tr := trace s ++ [Invoke who] in
  match h (httpCtx s) with
  | Return c => Returned tt {| httpCtx := c; res_writer := res_writer s; trace := tr |}
  | Panic v c => Panicked v {| httpCtx := c; res_writer := res_writer s; trace := tr |}
  end.

(** [defer func() { ... recover() ... }()] followed by [body]: the deferred
    function runs when [body] is left, by return or by panic, and is
    handed what [recover()] answers; once it returns, the function that
    deferred it returns normally. A panic raised inside the deferred
    function is not recovered by it: it leaves the function that deferred
    it. *)
Definition defer {A} (deferred : option PanicValue -> M unit) (body : M A) : M unit :=
  fun s =>
    let r := body s in
    deferred (recovered r) (state_of r).

(* ================================================================== *)
(** ** [wrapRouterHandle] *)

(** Lines 191-195: both objects come out of the pool and are reset. From
    [httpCtx.Reset(res, ...)] on, [httpCtx.Response] and [res] are one
    object: the state keeps it inside the context. *)
Definition acquire (env : Env) (w : http.ResponseWriter) (r : http.Request)
    (params : Params) : M unit :=
  emit (PoolGet ResponsePool) ;;
  let res := Response_Reset env (RawWriter w) in
  setWriter (RawWriter w) ;;
  emit (PoolGet ContextPool) ;;
  modifyCtx (fun _ => HttpContext_Reset env res r params).

(** Lines 197-206. *)
Definition gzipStep (env : Env) (server : HttpServer) (w : http.ResponseWriter) : M unit :=
  if EnabledGzip (ServerConfig server) then
    match gzip_NewWriterLevel w DefaultGzipLevel with
    | Some err => panic ("use gzip error -> " +:+ err)
    | None =>
        let grw := GzipResponseWriter w in
        modifyCtx (set_Response (Response_Reset env grw)) ;;
        setWriter grw ;;
        emit (SetHeader HeaderContentEncoding gzipScheme)
    end
  else mret tt.

(** Lines 210-227. A method call or field read on a nil session manager
    is a nil dereference. *)
Definition nil_dereference : PanicValue :=
  "runtime error: invalid memory address or nil pointer dereference".

Definition sessionStep (env : Env) (server : HttpServer) (r : http.Request) : M unit :=
  if EnabledSession (SessionConfig server) then
    match GetSessionManager server with
    | None => panic nil_dereference
    | Some manager =>
        let '(sessionId, err) := GetClientSessionID manager r in
        if bool_decide (err = None) && negb (bool_decide (sessionId = "")) then
          modifyCtx (set_SessionID sessionId)
        else
          match GetSessionManager server with
          | None => panic nil_dereference
          | Some manager =>
              modifyCtx (set_SessionID (NewSessionID manager tt)) ;;
              ctx ← getCtx ;
              match sessionManager server with
              | None => panic nil_dereference
              | Some sm =>
                  let cookie := {| http.Name := CookieName sm;
                                   http.Value := url_QueryEscape env (SessionID ctx);
                                   http.Path := "/" |} in
                  emit (SetCookie cookie)
              end
          end
    end
  else mret tt.

(** Lines 229-239: answers [true] when the wrapper returns here. *)
Definition hijackStep (isHijack : bool) (w : http.ResponseWriter) : M bool :=
  if isHijack then
    emit Hijack ;;
    match http.w_hijack w with
    | Some hijack_err =>
        emit (WriteHeader http.StatusInternalServerError) ;;
        modifyCtx (Context_WriteHeader http.StatusInternalServerError) ;;
        emit (ResponseHeaderSet HeaderContentType CharsetUTF8) ;;
        emit (WriteString hijack_err) ;;
        modifyCtx (Context_WriteString hijack_err) ;;
        mret true
    | None => mret false
    end
  else mret false.

(** Lines 242-279: the deferred function; [err] is what [recover()] gave. *)
Definition finalizer (env : Env) (server : HttpServer) (err : option PanicValue) : M unit :=
  match err with
  | Some err =>
      let errmsg := exception_CatchError env "httpserver::RouterHandle" LogTarget_HttpServer err in
      match ExceptionHandler (DotApp server) with
      | Some handler =>
          invoke (ExceptionHandlerWith err) (fun c => handler c err)
      | None => mret tt
      end ;;
      ctx ← getCtx ;
      let headinfo := fmt_Sprintln_Header env ctx in
      let logJson := {| RequestUrl := http.RequestURI (Request ctx);
                        HttpHeader := headinfo;
                        HttpBody := errmsg |} in
      let logString := jsonutil_GetJsonString env logJson in
      emit (LoggerLog logString LogTarget_HttpServer LogLevel_Error) ;;
      emit (AddErrorCount 1)
  | None => mret tt
  end ;;
  let timetaken := timetaken_ms env in
  ctx ← getCtx ;
  emit (LoggerLog (Url ctx +:+ " " +:+ logContext (Some ctx) timetaken)
          LogTarget_HttpRequest LogLevel_Debug) ;;
  (if EnabledGzip (ServerConfig server) then
     w ← getWriter ;
     match w with
     | GzipResponseWriter _ => emit GzipClose
     | RawWriter _ => panic "interface conversion: not *gzipResponseWriter"
     end
   else mret tt) ;;
  emit (PoolPut ResponsePool) ;;
  emit ContextRelease ;;
  modifyCtx (Context_release env) ;;
  emit (PoolPut ContextPool).

Fixpoint runOnBeginRequest (i : nat) (modules : list HttpModule) : M unit :=
  match modules with
  | [] => mret tt
  | module :: rest =>
      match OnBeginRequest module with
      | Some h => invoke (OnBeginRequestOf i) h
      | None => mret tt
      end ;;
      runOnBeginRequest (S i) rest
  end.

Fixpoint runOnEndRequest (i : nat) (modules : list HttpModule) : M unit :=
  match modules with
  | [] => mret tt
  | module :: rest =>
      match OnEndRequest module with
      | Some h => invoke (OnEndRequestOf i) h
      | None => mret tt
      end ;;
      runOnEndRequest (S i) rest
  end.

(** Lines 288-292. *)
Definition handleStep (handle : HttpHandle) : M unit :=
  ctx ← getCtx ;
  if negb (isEnd ctx) then invoke UserHandle handle else mret tt.

(** Lines 281-299: pre-hooks, handler, post-hooks. *)
Definition pipeline (server : HttpServer) (handle : HttpHandle) : M unit :=
  runOnBeginRequest 0 (Modules (DotApp server)) ;;
  handleStep handle ;;
  runOnEndRequest 0 (Modules (DotApp server)).

(** Everything before the hijack step (lines 191-227). *)
Definition setup (env : Env) (server : HttpServer) (w : http.ResponseWriter)
    (r : http.Request) (params : Params) : M unit :=
  acquire env w r params ;;
  gzipStep env server w ;;
  emit (AddRequestCount 1) ;;
  sessionStep env server r.

Definition wrapRouterHandle (env : Env) (server : HttpServer) (handle : HttpHandle)
    (isHijack : bool) (w : http.ResponseWriter) (r : http.Request)
    (params : Params) : M unit :=
  setup env server w r params ;;
  returned ← hijackStep isHijack w ;
  if returned : bool then mret tt
  else defer (finalizer env server) (pipeline server handle).

(* ================================================================== *)
(** ** [wrapFileHandle] *)

Definition set_URL_Path (p : string) (r : http.Request) : http.Request :=
  {| http.Method := http.Method r; http.Proto := http.Proto r;
     http.ContentLength := http.ContentLength r;
     http.RequestURI := http.RequestURI r; http.RemoteAddr := http.RemoteAddr r;
     http.Header := http.Header r; http.URL_Path := p |}.

(** The writer as the file handler leaves it, and the calls made. *)
Definition wrapFileHandle (env : Env) (fileHandler : http.Handler)
    (w : http.ResponseWriter) (r : http.Request) (params : Params)
    : http.ResponseWriter * list Event :=
  let r := set_URL_Path (ByName params "filepath") r in
  let w := fileHandler w r in
  let timetaken := timetaken_ms env in
  (w, [AddRequestCount 1;
       LoggerLog (url_String env r +:+ " " +:+ logRequest r timetaken)
         LogTarget_HttpRequest LogLevel_Debug]).

(* ================================================================== *)
(** ** Reading a trace *)

(** The callbacks invoked, in order. *)
Fixpoint callbacks_of (evs : list Event) : list Callback :=
  match evs with
  | [] => []
  | Invoke who :: rest => who :: callbacks_of rest
  | _ :: rest => callbacks_of rest
  end.

(** The cookies handed to [SetCookie], in order. *)
Fixpoint cookies_of (evs : list Event) : list http.Cookie :=
  match evs with
  | [] => []
  | SetCookie c :: rest => c :: cookies_of rest
  | _ :: rest => cookies_of rest
  end.

(** The panic values the application's panic handler was called with. *)
Fixpoint panic_handler_calls (evs : list Event) : list PanicValue :=
  match evs with
  | [] => []
  | Invoke (ExceptionHandlerWith v) :: rest => v :: panic_handler_calls rest
  | _ :: rest => panic_handler_calls rest
  end.

(** The records logged at error severity. *)
Fixpoint error_logs (evs : list Event) : list string :=
  match evs with
  | [] => []
  | LoggerLog msg _ LogLevel_Error :: rest => msg :: error_logs rest
  | _ :: rest => error_logs rest
  end.

(** By how much the calls raise the process-wide error counter. *)
Fixpoint error_count (evs : list Event) : Z :=
  match evs with
  | [] => 0
  | AddErrorCount n :: rest => n + error_count rest
  | _ :: rest => error_count rest
  end.

(** How often an object is taken from, or put back into, a pool. *)
Definition gets (p : PoolKind) (evs : list Event) : nat := count_occ Event_eq_dec evs (PoolGet p).
Definition puts (p : PoolKind) (evs : list Event) : nat := count_occ Event_eq_dec evs (PoolPut p).

(** The calls of the set-up phase: none of them is a callback, a log
    record, an error count or a release. *)
Definition is_setup_event (e : Event) : bool :=
  match e with
  | PoolGet _ | SetHeader _ _ | SetCookie _ | AddRequestCount _ => true
  | _ => false
  end.

(** The calls the deferred function makes. *)
Definition is_finalizer_event (e : Event) : bool :=
  match e with
  | Invoke (ExceptionHandlerWith _) | LoggerLog _ _ _ | AddErrorCount _
  | GzipClose | PoolPut _ | ContextRelease => true
  | _ => false
  end.

(** The pre-hooks and post-hooks registered, in registration order. *)
Fixpoint begin_calls (i : nat) (modules : list HttpModule) : list Callback :=
  match modules with
  | [] => []
  | module :: rest =>
      match OnBeginRequest module with
      | Some _ => OnBeginRequestOf i :: begin_calls (S i) rest
      | None => begin_calls (S i) rest
      end
  end.

Fixpoint end_calls (i : nat) (modules : list HttpModule) : list Callback :=
  match modules with
  | [] => []
  | module :: rest =>
      match OnEndRequest module with
      | Some _ => OnEndRequestOf i :: end_calls (S i) rest
      | None => end_calls (S i) rest
      end
  end.

(** From state [s], the wrapper gets past set-up and the hijack step and
    is about to register the deferred function, in state [s2]. *)
Definition reaches_pipeline (env : Env) (server : HttpServer) (isHijack : bool)
    (w : http.ResponseWriter) (r : http.Request) (params : Params)
    (s s2 : State) : Prop :=
  exists s1, setup env server w r params s = Returned tt s1
             /\ hijackStep isHijack w s1 = Returned false s2.

(* ================================================================== *)
(** ** Sample inputs *)

Module Sample.

Definition env : Env :=
  {| url_QueryEscape := fun s => s;
     exception_CatchError := fun title _ v => title +:+ " error! => " +:+ v;
     fmt_Sprintln_Header := fun _ => "";
     jsonutil_GetJsonString := fun j => RequestUrl j +:+ "|" +:+ HttpBody j;
     url_String := http.URL_Path;
     Response_Reset := fun _ => {| Status := 200; Size := 0 |};
     Context_release := set_SessionID "";
     remoteIP_of := http.RemoteAddr;
     url_of := http.RequestURI;
     timetaken_ms := 3 |}.

Definition request (headers : gmap string (list string)) : http.Request :=
  {| http.Method := "GET"; http.Proto := "HTTP/1.1"; http.ContentLength := 12;
     http.RequestURI := "/index"; http.RemoteAddr := "10.0.0.7:4711";
     http.Header := headers; http.URL_Path := "/index" |}.

Definition plain_request : http.Request := request ∅.

Definition connection (value : string) : http.Request :=
  request {[ "Connection" := [value] ]}.

Definition writer : http.ResponseWriter :=
  {| http.w_header := ∅; http.w_body := []; http.w_hijack := None |}.

(** A writer whose connection cannot be taken over. *)
Definition writer_no_hijack : http.ResponseWriter :=
  {| http.w_header := ∅; http.w_body := [];
     http.w_hijack := Some "webserver doesn't support hijacking" |}.

(** A downstream handler that writes its name and the [Server] header it
    was handed. *)
Definition probe (name : string) : http.Handler := fun w _ =>
  {| http.w_header := http.w_header w;
     http.w_body := http.w_body w
                    ++ [name; http.Header_Get (http.w_header w) HeaderServer];
     http.w_hijack := http.w_hijack w |}.

Definition set_isEnd (b : bool) (c : HttpContext) : HttpContext :=
  {| Request := Request c; Response_ := Response_ c; SessionID := SessionID c;
     IsWebSocket := IsWebSocket c; isEnd := b;
     RemoteIP := RemoteIP c; Url := Url c |}.

Definition set_Status (code : Z) (c : HttpContext) : HttpContext :=
  set_Response {| Status := code; Size := Size (Response_ c) |} c.

Definition returns : HttpHandle := fun c => Return c.
Definition ends_request : HttpHandle := fun c => Return (set_isEnd true c).
Definition panics (v : PanicValue) : HttpHandle := fun c => Panic v c.

Definition application (modules : list HttpModule)
    (handler : option (HttpContext -> PanicValue -> Outcome)) : DotWeb :=
  {| Modules := modules; ExceptionHandler := handler;
     OfflineServer := probe "OfflineServer" |}.

Definition manager : SessionManager :=
  {| CookieName := "dotweb_sessionId";
     GetClientSessionID := fun r =>
       match http.Header r !! "Cookie" with
       | Some (v :: _) => (v, None)
       | _ => ("", Some "http: named cookie not present")
       end;
     NewSessionID := fun _ => "f81d4fae7dec11d0a76500a0c91e6bf6" |}.

Definition server (app : DotWeb) (gzip session isOffline : bool) : HttpServer :=
  {| router := probe "Router"; DotApp := app;
     sessionManager := if session then Some manager else None;
     ServerConfig := {| EnabledGzip := gzip; EnabledAutoHEAD := false |};
     SessionConfig := {| EnabledSession := session |};
     offline := isOffline |}.

(** Two modules: the first has both hooks, the second only a post-hook. *)
Definition two_modules (first_begin : HttpHandle) : list HttpModule :=
  [ {| OnBeginRequest := Some first_begin; OnEndRequest := Some returns |};
    {| OnBeginRequest := None; OnEndRequest := Some returns |} ].

(** A pooled context as its last tenant left it, nothing called yet. *)
Definition stale : State :=
  {| httpCtx := {| Request := connection "close";
                   Response_ := {| Status := 404; Size := 9 |};
                   SessionID := "old"; IsWebSocket := false; isEnd := true;
                   RemoteIP := "192.168.1.1"; Url := "/old" |};
     res_writer := RawWriter writer_no_hijack;
     trace := [] |}.

(** A panic handler that answers with status 500. *)
Definition answer_500 : HttpContext -> PanicValue -> Outcome :=
  fun c _ => Return (set_Status 500 c).

(** A panic handler that panics itself. *)
Definition handler_fails : HttpContext -> PanicValue -> Outcome :=
  fun c _ => Panic "panic handler failed" c.


End Sample.

(* ================================================================== *)
(** ** The rest of [server.go] *)

(** [strings.Index(s, substr)]: where [substr] first occurs in [s], or -1. *)
Definition strings_Index (s substr : string) : Z :=
  match String.index 0 substr s with
  | Some n => Z.of_nat n
  | None => -1
  end.

Definition checkIsDebugRequest (req : http.Request) : bool :=
  if decide (strings_Index (http.RequestURI req) "/debug/" = 0%Z)
  then true
  else false.

Module session.

(** [session.StoreConfig]: the fields [server.go] copies. *)
Record StoreConfig := {
  Maxlifetime : Z;
  StoreName : string;
  ServerIP : string
}.

End session.

Module config.

(** [config.SessionConfig], with the fields the two session functions of
    the server copy; the request path reads [EnabledSession] only. *)
Record SessionConfig := {
  EnabledSession : bool;
  Timeout : Z;
  SessionMode : string;
  ServerIP : string
}.

End config.

(** [SetSessionConfig], on the [server.SessionConfig] it updates. *)
Definition SetSessionConfig (sessionConfig : config.SessionConfig)
    (storeConfig : session.StoreConfig) : config.SessionConfig :=
  {| config.EnabledSession := config.EnabledSession sessionConfig;
     config.Timeout := session.Maxlifetime storeConfig;
     config.SessionMode := session.StoreName storeConfig;
     config.ServerIP := session.ServerIP storeConfig |}.

(** [InitSessionManager], on the [server.SessionConfig] it reads and the
    [server.sessionManager] it may assign: [inl] is the manager field when
    the function returns, [inr] the value it panics with.
    [NewDefaultSessionManager] is [session.NewDefaultSessionManager], which
    answers a manager or an error. *)
Definition InitSessionManager
    (NewDefaultSessionManager : session.StoreConfig -> SessionManager + string)
    (sessionConfig : config.SessionConfig) (current : option SessionManager)
    : option SessionManager + PanicValue :=
  let storeConfig :=
    {| session.Maxlifetime := config.Timeout sessionConfig;
       session.StoreName := config.SessionMode sessionConfig;
       session.ServerIP := config.ServerIP sessionConfig |} in
  match current with
  | None =>
      match NewDefaultSessionManager storeConfig with
      | inr err => inr err
      | inl manager => inl (Some manager)
      end
  | Some _ => inl current
  end.

(* ------------------------------------------------------------------ *)
(** *** [wrapWebSocketHandle] *)

(** Stands for the nil [*Response] of a WebSocket context: it is never
    read. [logContext] reads [ctx.Response] in its non-WebSocket branch
    only, which on such a context is a nil dereference. *)
Definition no_Response : Response := {| Status := 0; Size := 0 |}.

Definition set_IsWebSocket (b : bool) (c : HttpContext) : HttpContext :=
  {| Request := Request c; Response_ := Response_ c; SessionID := SessionID c;
     IsWebSocket := b; isEnd := isEnd c;
     RemoteIP := RemoteIP c; Url := Url c |}.

(** Lines 322-327: the context handed to the handler. *)
Definition webSocketContext (env : Env) (request : http.Request) : HttpContext :=
  set_IsWebSocket true (HttpContext_Reset env no_Response request []).

(** Lines 330-354: the deferred function. [request] is
    [httpCtx.WebSocket.Conn.Request()] and [Sprintln] renders its header. *)
Definition webSocketFinalizer (env : Env)
    (Sprintln : gmap string (list string) -> string) (request : http.Request)
    (err : option PanicValue) : M unit :=
  match err with
  | Some err =>
      let errmsg := exception_CatchError env "httpserver::WebsocketHandle"
                      LogTarget_HttpServer err in
      let headinfo := Sprintln (http.Header request) in
      let logJson := {| RequestUrl := http.RequestURI request;
                        HttpHeader := headinfo;
                        HttpBody := errmsg |} in
      let logString := jsonutil_GetJsonString env logJson in
      emit (LoggerLog logString LogTarget_HttpServer LogLevel_Error) ;;
      emit (AddErrorCount 1)
  | None => mret tt
  end ;;
  let timetaken := timetaken_ms env in
  ctx ← getCtx ;
  (if IsWebSocket ctx then
     emit (LoggerLog (Url ctx +:+ " " +:+ logContext (Some ctx) timetaken)
             LogTarget_HttpRequest LogLevel_Debug)
   else panic nil_dereference) ;;
  emit (PoolPut ContextPool).

(** [wrapWebSocketHandle], run for the connection whose opening request is
    [request]. *)
Definition wrapWebSocketHandle (env : Env)
    (Sprintln : gmap string (list string) -> string) (server : HttpServer)
    (handle : HttpHandle) (request : http.Request) : M unit :=
  emit (PoolGet ContextPool) ;;
  modifyCtx (fun _ => webSocketContext env request) ;;
  defer (webSocketFinalizer env Sprintln request)
    (invoke UserHandle handle ;;
     emit (AddRequestCount 1)).

(* ------------------------------------------------------------------ *)
(** *** More readings of a trace *)

(** By how much the calls raise the process-wide request counter. *)
Fixpoint request_count (evs : list Event) : Z :=
  match evs with
  | [] => 0
  | AddRequestCount n :: rest => n + request_count rest
  | _ :: rest => request_count rest
  end.

(** The access-log records: what is logged for [LogTarget_HttpRequest] at
    debug severity. *)
Fixpoint access_logs (evs : list Event) : list string :=
  match evs with
  | [] => []
  | LoggerLog msg LogTarget_HttpRequest LogLevel_Debug :: rest => msg :: access_logs rest
  | _ :: rest => access_logs rest
  end.

(** The headers set through [httpCtx.SetHeader]. *)
Fixpoint headers_set (evs : list Event) : list (string * string) :=
  match evs with
  | [] => []
  | SetHeader key value :: rest => (key, value) :: headers_set rest
  | _ :: rest => headers_set rest
  end.

(** The error record of lines 253-260, for panic value [v] and the context
    [c] the deferred function holds when it assembles the record. *)
Definition error_record (env : Env) (c : HttpContext) (v : PanicValue) : string :=
  jsonutil_GetJsonString env
    {| RequestUrl := http.RequestURI (Request c);
       HttpHeader := fmt_Sprintln_Header env c;
       HttpBody := exception_CatchError env "httpserver::RouterHandle"
                     LogTarget_HttpServer v |}.

(** The access record of line 267, for the context [c]. *)
Definition access_record (env : Env) (c : HttpContext) : string :=
  Url c +:+ " " +:+ logContext (Some c) (timetaken_ms env).

(** The last calls of the deferred function (lines 269-278). *)
Definition teardown (server : HttpServer) : list Event :=
  (if EnabledGzip (ServerConfig server) then [GzipClose] else [])
  ++ [PoolPut ResponsePool; ContextRelease; PoolPut ContextPool].

(** What recovery (lines 244-250) makes of the context [c] the pipeline
    left, when [recover()] answers [rv]: the panic handler's outcome when
    there was a panic and a handler is registered; otherwise nothing is run
    and the context stays. *)
Definition recovery_outcome (server : HttpServer) (rv : option PanicValue)
    (c : HttpContext) : Outcome :=
  match rv, ExceptionHandler (DotApp server) with
  | Some v, Some handler => handler c v
  | _, _ => Return c
  end.

(** The call of the panic handler (line 249). *)
Definition panic_handler_call (server : HttpServer) (rv : option PanicValue)
    : list Event :=
  match rv, ExceptionHandler (DotApp server) with
  | Some v, Some _ => [Invoke (ExceptionHandlerWith v)]
  | _, _ => []
  end.

(** The error report of lines 253-263, for the context [c] recovery left. *)
Definition error_report (env : Env) (rv : option PanicValue) (c : HttpContext)
    : list Event :=
  match rv with
  | Some v => [LoggerLog (error_record env c v) LogTarget_HttpServer LogLevel_Error;
               AddErrorCount 1]
  | None => []
  end.

Definition is_teardown_event (e : Event) : bool :=
  match e with
  | GzipClose | PoolPut _ | ContextRelease => true
  | _ => false
  end.

(** What a callback's outcome says: the panic value, the context left. *)
Definition panic_of (o : Outcome) : option PanicValue :=
  match o with
  | Return _ => None
  | Panic v _ => Some v
  end.

Definition context_of (o : Outcome) : HttpContext :=
  match o with
  | Return c => c
  | Panic _ c => c
  end.

(** The state after the callbacks [calls] were invoked from state [s] with
    overall outcome [o]. *)
Definition after_callbacks (o : Outcome) (s : State) (calls : list Callback)
    : Result unit :=
  let s' := {| httpCtx := context_of o; res_writer := res_writer s;
               trace := trace s ++ map Invoke calls |} in
  match o with
  | Return _ => Returned tt s'
  | Panic v _ => Panicked v s'
  end.

(** Running the hooks of the modules in registration order, from module
    number [i] on and starting with context [c]: each registered hook is
    called on the context its predecessor left; the run stops at the first
    hook that panics. [calls] are the hooks called and [o] is how the run
    ends. *)
Inductive hooks_run (hook_of : HttpModule -> option HttpHandle)
    (name : nat -> Callback)
  : nat -> list HttpModule -> HttpContext -> list Callback -> Outcome -> Prop :=
| hooks_done i c :
    hooks_run hook_of name i [] c [] (Return c)
| hooks_unset i module rest c calls o :
    hook_of module = None ->
    hooks_run hook_of name (S i) rest c calls o ->
    hooks_run hook_of name i (module :: rest) c calls o
| hooks_next i module rest h c c' calls o :
    hook_of module = Some h ->
    h c = Return c' ->
    hooks_run hook_of name (S i) rest c' calls o ->
    hooks_run hook_of name i (module :: rest) c (name i :: calls) o
| hooks_stop i module rest h c v c' :
    hook_of module = Some h ->
    h c = Panic v c' ->
    hooks_run hook_of name i (module :: rest) c [name i] (Panic v c').

(** The pipeline of lines 281-299, started with context [c]: pre-hooks,
    then the handler unless the ended flag is set, then post-hooks; a panic
    ends it on the spot. *)
Inductive pipeline_run (server : HttpServer) (handle : HttpHandle)
  : HttpContext -> list Callback -> Outcome -> Prop :=
| pre_hook_panics c pre v c' :
    hooks_run OnBeginRequest OnBeginRequestOf 0 (Modules (DotApp server)) c pre
      (Panic v c') ->
    pipeline_run server handle c pre (Panic v c')
| request_ended c pre c1 post o :
    hooks_run OnBeginRequest OnBeginRequestOf 0 (Modules (DotApp server)) c pre
      (Return c1) ->
    isEnd c1 = true ->
    hooks_run OnEndRequest OnEndRequestOf 0 (Modules (DotApp server)) c1 post o ->
    pipeline_run server handle c (pre ++ post) o
| handler_panics c pre c1 v c2 :
    hooks_run OnBeginRequest OnBeginRequestOf 0 (Modules (DotApp server)) c pre
      (Return c1) ->
    isEnd c1 = false ->
    handle c1 = Panic v c2 ->
    pipeline_run server handle c (pre ++ [UserHandle]) (Panic v c2)
| handler_returns c pre c1 c2 post o :
    hooks_run OnBeginRequest OnBeginRequestOf 0 (Modules (DotApp server)) c pre
      (Return c1) ->
    isEnd c1 = false ->
    handle c1 = Return c2 ->
    hooks_run OnEndRequest OnEndRequestOf 0 (Modules (DotApp server)) c2 post o ->
    pipeline_run server handle c (pre ++ UserHandle :: post) o.


(* ================================================================== *)
(** * Properties *)

(** Unfolds the monad's primitives. *)
Ltac unfold_M :=
  unfold mbind, M_bind, mret, M_ret, emit, panic, getCtx, getWriter,
    modifyCtx, setWriter in *.

(** ** The front door *)

Lemma checkIsWebSocketRequest_true req :
  checkIsWebSocketRequest req = true
  <-> http.Header_Get (http.Header req) "Connection" = "Upgrade".
Proof.
  unfold checkIsWebSocketRequest. case_decide; split; intros; done.
Qed.

Lemma checkIsWebSocketRequest_false req :
  checkIsWebSocketRequest req = false
  <-> http.Header_Get (http.Header req) "Connection" <> "Upgrade".
Proof.
  unfold checkIsWebSocketRequest. case_decide; split; intros; done.
Qed.

Lemma Header_Get_Set key value h :
  http.Header_Get (http.Header_Set key value h) key = value.
Proof.
  unfold http.Header_Get, http.Header_Set. by rewrite lookup_insert_eq.
Qed.

Lemma ServeHTTP_upgrade mux server w req :
  checkIsWebSocketRequest req = true ->
  ServeHTTP mux server w req = mux w req.
Proof. intros H. unfold ServeHTTP. by rewrite H. Qed.

Lemma ServeHTTP_dispatch mux server w req :
  checkIsWebSocketRequest req = false ->
  ServeHTTP mux server w req =
    (if IsOffline server then OfflineServer (DotApp server) else Router server)
      (http.set_w_header (http.Header_Set HeaderServer DefaultServerName) w) req.
Proof. intros H. unfold ServeHTTP. rewrite H. by destruct (IsOffline server). Qed.

(** C10. A request is classified as a WebSocket upgrade exactly when
    [Header.Get("Connection")] is the string ["Upgrade"]; classified
    requests go to the default mux and all others to the offline handler or
    the router. The comparison is literal: ["upgrade"] and
    ["keep-alive, Upgrade"] are not classified, and such a request reaches
    the router. *)
Theorem websocket_classification_is_exact_match :
  (forall req,
     checkIsWebSocketRequest req = true
     <-> http.Header_Get (http.Header req) "Connection" = "Upgrade")
  /\ (forall mux server w req,
        http.Header_Get (http.Header req) "Connection" = "Upgrade" ->
        ServeHTTP mux server w req = mux w req)
  /\ (forall mux server w req,
        http.Header_Get (http.Header req) "Connection" <> "Upgrade" ->
        ServeHTTP mux server w req =
          (if IsOffline server then OfflineServer (DotApp server) else Router server)
            (http.set_w_header (http.Header_Set HeaderServer DefaultServerName) w) req)
  /\ checkIsWebSocketRequest (Sample.connection "Upgrade") = true
  /\ checkIsWebSocketRequest (Sample.connection "upgrade") = false
  /\ checkIsWebSocketRequest (Sample.connection "keep-alive, Upgrade") = false
  /\ checkIsWebSocketRequest Sample.plain_request = false
  /\ http.w_body
       (ServeHTTP (Sample.probe "DefaultServeMux")
          (Sample.server (Sample.application [] None) false false false)
          Sample.writer (Sample.connection "keep-alive, Upgrade"))
     = ["Router"; DefaultServerName].
Proof.
  split; [apply checkIsWebSocketRequest_true|].
  split; [intros; by apply ServeHTTP_upgrade, checkIsWebSocketRequest_true|].
  split; [intros; by apply ServeHTTP_dispatch, checkIsWebSocketRequest_false|].
  repeat split; reflexivity.
Qed.

(** C2, as the code has it. For every request that is not classified as a
    WebSocket upgrade, also when the server is offline, the writer handed
    to the offline handler or to the router already carries the [Server]
    header with the fixed server name. *)
Theorem ServeHTTP_stamps_server_header_before_dispatch mux server w req :
  checkIsWebSocketRequest req = false ->
  let stamped := http.set_w_header (http.Header_Set HeaderServer DefaultServerName) w in
  http.Header_Get (http.w_header stamped) HeaderServer = DefaultServerName
  /\ (IsOffline server = true ->
      ServeHTTP mux server w req = OfflineServer (DotApp server) stamped req)
  /\ (IsOffline server = false ->
      ServeHTTP mux server w req = Router server stamped req).
Proof.
  intros H stamped. split; [apply Header_Get_Set|].
  rewrite (ServeHTTP_dispatch _ _ _ _ H).
  split; intros ->; reflexivity.
Qed.

(** The offline server, asked by a plain request, sees the header. *)
Lemma ServeHTTP_stamps_server_header_witness :
  checkIsWebSocketRequest Sample.plain_request = false
  /\ http.w_body
       (ServeHTTP (Sample.probe "DefaultServeMux")
          (Sample.server (Sample.application [] None) false false true)
          Sample.writer Sample.plain_request)
     = ["OfflineServer"; "dotweb"].
Proof.
  split; [reflexivity|].
  destruct (ServeHTTP_stamps_server_header_before_dispatch
              (Sample.probe "DefaultServeMux")
              (Sample.server (Sample.application [] None) false false true)
              Sample.writer Sample.plain_request eq_refl) as (_ & Hoff & _).
  rewrite (Hoff eq_refl). reflexivity.
Defined.

(** C2, as stated, fails: a request with [Connection: Upgrade] is handed to
    the default mux with no [Server] header on the writer, and none is set
    afterwards. *)
Lemma ServeHTTP_upgrade_request_not_stamped :
  let w := ServeHTTP (Sample.probe "DefaultServeMux")
             (Sample.server (Sample.application [] None) false false false)
             Sample.writer (Sample.connection "Upgrade") in
  http.w_body w = ["DefaultServeMux"; ""]
  /\ http.Header_Get (http.w_header w) HeaderServer <> DefaultServerName.
Proof. split; [reflexivity | discriminate]. Qed.

(* ------------------------------------------------------------------ *)
(** ** Access-log formatting *)

Lemma append_assoc (a b c : string) : (a +:+ b) +:+ c = a +:+ (b +:+ c).
Proof.
  induction a as [|x a IH]; [reflexivity|].
  change (String x ((a +:+ b) +:+ c) = String x (a +:+ (b +:+ c))).
  by rewrite IH.
Qed.

Lemma logRequest_fields req timetaken :
  logRequest req timetaken =
    join_spaces [http.Method req; http.RemoteAddr req; http.Proto req; "200";
                 Int642String (http.ContentLength req); "";
                 Int642String timetaken].
Proof. unfold logRequest. cbn [join_spaces]. by rewrite !append_assoc. Qed.

Lemma logContext_fields_websocket ctx timetaken :
  IsWebSocket ctx = true ->
  logContext (Some ctx) timetaken =
    join_spaces [http.Method (Request ctx); RemoteIP ctx; http.Proto (Request ctx);
                 "0"; Int642String (http.ContentLength (Request ctx)); "0";
                 Int642String timetaken].
Proof.
  intros H. unfold logContext. rewrite H. cbn [negb join_spaces].
  by rewrite !append_assoc.
Qed.

Lemma logContext_fields_http ctx timetaken :
  IsWebSocket ctx = false ->
  logContext (Some ctx) timetaken =
    join_spaces [http.Method (Request ctx); RemoteIP ctx; http.Proto (Request ctx);
                 Int2String (Status (Response_ ctx));
                 Int642String (http.ContentLength (Request ctx));
                 Int642String (Size (Response_ ctx));
                 Int642String timetaken].
Proof.
  intros H. unfold logContext. rewrite H. cbn [negb join_spaces].
  by rewrite !append_assoc.
Qed.

(** C9. Both format functions build the seven fields method, caller
    address, protocol, status, request byte length, response byte length
    and elapsed milliseconds, joined by single spaces. [logRequest] always
    writes status ["200"] (and leaves the response length empty), whatever
    the file handler did; [logContext] writes status ["0"] and response
    length ["0"] for a WebSocket context, and the response's status and
    size otherwise. *)
Theorem access_log_line_format :
  (forall req timetaken,
     logRequest req timetaken =
       join_spaces [http.Method req; http.RemoteAddr req; http.Proto req; "200";
                    Int642String (http.ContentLength req); "";
                    Int642String timetaken])
  /\ (forall env fileHandler w r params,
        snd (wrapFileHandle env fileHandler w r params) =
          [AddRequestCount 1;
           LoggerLog
             (url_String env (set_URL_Path (ByName params "filepath") r) +:+ " " +:+
              join_spaces [http.Method r; http.RemoteAddr r; http.Proto r; "200";
                           Int642String (http.ContentLength r); "";
                           Int642String (timetaken_ms env)])
             LogTarget_HttpRequest LogLevel_Debug])
  /\ (forall ctx timetaken,
        IsWebSocket ctx = true ->
        logContext (Some ctx) timetaken =
          join_spaces [http.Method (Request ctx); RemoteIP ctx;
                       http.Proto (Request ctx); "0";
                       Int642String (http.ContentLength (Request ctx)); "0";
                       Int642String timetaken])
  /\ (forall ctx timetaken,
        IsWebSocket ctx = false ->
        logContext (Some ctx) timetaken =
          join_spaces [http.Method (Request ctx); RemoteIP ctx;
                       http.Proto (Request ctx);
                       Int2String (Status (Response_ ctx));
                       Int642String (http.ContentLength (Request ctx));
                       Int642String (Size (Response_ ctx));
                       Int642String timetaken])
  /\ (forall timetaken,
        logContext None timetaken =
          join_spaces [""; ""; ""; ""; ""; ""; Int642String timetaken]).
Proof.
  split; [apply logRequest_fields|].
  split; [intros; unfold wrapFileHandle; cbn [snd]; by rewrite logRequest_fields|].
  split; [apply logContext_fields_websocket|].
  split; [apply logContext_fields_http|].
  reflexivity.
Qed.



(* ------------------------------------------------------------------ *)
(** ** The standard lifecycle wrapper, step by step *)

Lemma gzip_NewWriterLevel_default w : gzip_NewWriterLevel w DefaultGzipLevel = None.
Proof. reflexivity. Qed.

Lemma setup_returns env server w r params s s1 :
  setup env server w r params s = Returned tt s1 ->
  exists evs, trace s1 = trace s ++ evs
    /\ Forall (fun e => is_setup_event e = true) evs
    /\ gets ResponsePool evs = 1 /\ gets ContextPool evs = 1
    /\ (EnabledGzip (ServerConfig server) = true -> res_writer s1 = GzipResponseWriter w).
Proof.
  unfold setup, acquire, gzipStep, sessionStep, GetSessionManager.
  rewrite gzip_NewWriterLevel_default.
  destruct (EnabledGzip (ServerConfig server));
    (destruct (EnabledSession (SessionConfig server)); cbn [negb];
     [destruct (sessionManager server) as [manager|];
      [destruct (GetClientSessionID manager r) as [sessionId err];
       destruct (bool_decide (err = None) && negb (bool_decide (sessionId = "")))|]|]);
    unfold_M; cbn; intros [= <-]; cbn;
    rewrite <- ?app_assoc; cbn;
    (eexists; split; [reflexivity|]; split; [repeat constructor | done]).
Qed.

Lemma hijackStep_continues isHijack w s1 s2 :
  hijackStep isHijack w s1 = Returned false s2 ->
  httpCtx s2 = httpCtx s1 /\ res_writer s2 = res_writer s1
  /\ trace s2 = trace s1 ++ (if isHijack then [Hijack] else []).
Proof.
  unfold hijackStep. destruct isHijack; [destruct (http.w_hijack w)|];
    unfold_M; cbn; intros [= <-]; cbn; by rewrite ?app_nil_r.
Qed.

Lemma hijackStep_fails w s1 e :
  http.w_hijack w = Some e ->
  hijackStep true w s1 =
    Returned true
      {| httpCtx := Context_WriteString e
                      (Context_WriteHeader http.StatusInternalServerError (httpCtx s1));
         res_writer := res_writer s1;
         trace := trace s1 ++ [Hijack; WriteHeader 500;
                               ResponseHeaderSet HeaderContentType CharsetUTF8;
                               WriteString e] |}.
Proof.
  intros H. unfold hijackStep. rewrite H. unfold_M. cbn.
  by rewrite <- !app_assoc.
Qed.

(** The hijack step has two exits. *)
Lemma hijackStep_cases isHijack w s1 :
  (exists s2, hijackStep isHijack w s1 = Returned false s2)
  \/ (isHijack = true /\ exists e, http.w_hijack w = Some e).
Proof.
  unfold hijackStep. destruct isHijack; [|left; by eexists].
  destruct (http.w_hijack w) as [e|]; [right; by eauto | left; by eexists].
Qed.

Lemma wrapRouterHandle_reaches env server handle isHijack w r params s s2 :
  reaches_pipeline env server isHijack w r params s s2 ->
  wrapRouterHandle env server handle isHijack w r params s =
    finalizer env server (recovered (pipeline server handle s2))
      (state_of (pipeline server handle s2)).
Proof.
  intros (s1 & Hsetup & Hhijack).
  unfold wrapRouterHandle, mbind, M_bind. rewrite Hsetup, Hhijack. reflexivity.
Qed.

(** *** Hooks and handler *)

Lemma after_callbacks_invoke who h s :
  invoke who h s = after_callbacks (h (httpCtx s)) s [who].
Proof. unfold invoke, after_callbacks. by destruct (h (httpCtx s)). Qed.

Lemma runOnBeginRequest_run modules : forall i s,
  exists calls o,
    hooks_run OnBeginRequest OnBeginRequestOf i modules (httpCtx s) calls o
    /\ runOnBeginRequest i modules s = after_callbacks o s calls.
Proof.
  induction modules as [|m rest IH]; intros i s; cbn [runOnBeginRequest].
  - exists [], (Return (httpCtx s)). split; [constructor|].
    unfold after_callbacks, mret, M_ret. cbn. rewrite app_nil_r. by destruct s.
  - unfold mbind, M_bind. destruct (OnBeginRequest m) as [h|] eqn:Hm.
    + rewrite after_callbacks_invoke.
      destruct (h (httpCtx s)) as [c'|v c'] eqn:Hh; cbn.
      * edestruct IH as (calls & o & Hrun & ->).
        exists (OnBeginRequestOf i :: calls), o. split.
        -- eapply hooks_next; eauto.
        -- unfold after_callbacks. cbn. rewrite <- app_assoc. by destruct o.
      * exists [OnBeginRequestOf i], (Panic v c'). split; [|done].
        eapply hooks_stop; eauto.
    + unfold mret, M_ret. destruct (IH (S i) s) as (calls & o & Hrun & ->).
      exists calls, o. split; [|done]. by apply hooks_unset.
Qed.

Lemma runOnEndRequest_run modules : forall i s,
  exists calls o,
    hooks_run OnEndRequest OnEndRequestOf i modules (httpCtx s) calls o
    /\ runOnEndRequest i modules s = after_callbacks o s calls.
Proof.
  induction modules as [|m rest IH]; intros i s; cbn [runOnEndRequest].
  - exists [], (Return (httpCtx s)). split; [constructor|].
    unfold after_callbacks, mret, M_ret. cbn. rewrite app_nil_r. by destruct s.
  - unfold mbind, M_bind. destruct (OnEndRequest m) as [h|] eqn:Hm.
    + rewrite after_callbacks_invoke.
      destruct (h (httpCtx s)) as [c'|v c'] eqn:Hh; cbn.
      * edestruct IH as (calls & o & Hrun & ->).
        exists (OnEndRequestOf i :: calls), o. split.
        -- eapply hooks_next; eauto.
        -- unfold after_callbacks. cbn. rewrite <- app_assoc. by destruct o.
      * exists [OnEndRequestOf i], (Panic v c'). split; [|done].
        eapply hooks_stop; eauto.
    + unfold mret, M_ret. destruct (IH (S i) s) as (calls & o & Hrun & ->).
      exists calls, o. split; [|done]. by apply hooks_unset.
Qed.

(** A run of hooks is a function of the modules and the context. *)
Lemma hooks_run_unique hook_of name i modules c calls o :
  hooks_run hook_of name i modules c calls o ->
  forall calls' o',
    hooks_run hook_of name i modules c calls' o' ->
    calls = calls' /\ o = o'.
Proof.
  induction 1 as [i c|i m rest c calls o Hm _ IH|i m rest h c c' calls o Hm Hh _ IH
                  |i m rest h c v c' Hm Hh];
    intros calls' o' H'; inversion H'; simplify_eq; try done;
    repeat match goal with
           | H1 : ?h ?c = _, H2 : ?h ?c = _ |- _ => rewrite H1 in H2; simplify_eq
           end; try done.
  - by apply IH.
  - match goal with H : hooks_run _ _ _ _ _ _ _ |- _ =>
      destruct (IH _ _ H) as [-> ->] end. done.
Qed.

Lemma begin_calls_are_pre_hooks modules : forall i,
  Forall (fun who => exists j, who = OnBeginRequestOf j) (begin_calls i modules).
Proof.
  induction modules as [|m rest IH]; intros i; cbn; [constructor|].
  destruct (OnBeginRequest m); [constructor; [by eexists|]|]; apply IH.
Qed.

Lemma end_calls_are_post_hooks modules : forall i,
  Forall (fun who => exists j, who = OnEndRequestOf j) (end_calls i modules).
Proof.
  induction modules as [|m rest IH]; intros i; cbn; [constructor|].
  destruct (OnEndRequest m); [constructor; [by eexists|]|]; apply IH.
Qed.

Lemma Forall_prefix {A} (P : A -> Prop) (l k : list A) :
  l `prefix_of` k -> Forall P k -> Forall P l.
Proof. intros [rest ->] H. by apply Forall_app in H as [H _]. Qed.

(** The pre-hooks called are the registered ones, in registration order:
    all of them when the run returns, an initial part otherwise. *)
Lemma pre_hooks_run_in_order i modules c calls o :
  hooks_run OnBeginRequest OnBeginRequestOf i modules c calls o ->
  calls `prefix_of` begin_calls i modules
  /\ (panic_of o = None -> calls = begin_calls i modules).
Proof.
  induction 1 as [i c|i m rest c calls o Hm _ IH|i m rest h c c' calls o Hm Hh _ IH
                  |i m rest h c v c' Hm Hh]; cbn [begin_calls]; rewrite ?Hm.
  - done.
  - done.
  - destruct IH as [Hp Hr]. split; [by apply prefix_cons|]. intros Hn. by rewrite Hr.
  - split; [apply prefix_cons, prefix_nil | done].
Qed.

Lemma post_hooks_run_in_order i modules c calls o :
  hooks_run OnEndRequest OnEndRequestOf i modules c calls o ->
  calls `prefix_of` end_calls i modules
  /\ (panic_of o = None -> calls = end_calls i modules).
Proof.
  induction 1 as [i c|i m rest c calls o Hm _ IH|i m rest h c c' calls o Hm Hh _ IH
                  |i m rest h c v c' Hm Hh]; cbn [end_calls]; rewrite ?Hm.
  - done.
  - done.
  - destruct IH as [Hp Hr]. split; [by apply prefix_cons|]. intros Hn. by rewrite Hr.
  - split; [apply prefix_cons, prefix_nil | done].
Qed.

(** A run that ends in a panic ends with the hook that panicked. *)
Lemma hooks_run_stops_at_the_panic hook_of name i modules c calls v c' :
  hooks_run hook_of name i modules c calls (Panic v c') ->
  exists front k h c0,
    calls = front ++ [name (i + k)]
    /\ hook_of <$> modules !! k = Some (Some h)
    /\ h c0 = Panic v c'.
Proof.
  remember (Panic v c') as o eqn:Ho.
  induction 1 as [i c|i m rest c calls o Hm _ IH|i m rest h c c1 calls o Hm Hh _ IH
                  |i m rest h c v1 c1 Hm Hh]; try done.
  - destruct (IH Ho) as (front & k & h & c0 & -> & Hk & Hp).
    exists front, (S k), h, c0. rewrite Nat.add_succ_r. done.
  - destruct (IH Ho) as (front & k & h' & c0 & -> & Hk & Hp).
    exists (name i :: front), (S k), h', c0. rewrite Nat.add_succ_r. done.
  - injection Ho as -> ->. exists [], 0, h, c. rewrite Nat.add_0_r. cbn.
    by rewrite Hm.
Qed.

Lemma pipeline_run_correct server handle s :
  exists calls o,
    pipeline_run server handle (httpCtx s) calls o
    /\ pipeline server handle s = after_callbacks o s calls.
Proof.
  unfold pipeline, handleStep, mbind, M_bind, getCtx.
  destruct (runOnBeginRequest_run (Modules (DotApp server)) 0 s)
    as (pre & o1 & Hpre & ->).
  destruct o1 as [c1|v c1]; cbn.
  - set (s1 := {| httpCtx := c1; res_writer := res_writer s;
                  trace := trace s ++ map Invoke pre |}).
    destruct (isEnd c1) eqn:Hend; cbn.
    + destruct (runOnEndRequest_run (Modules (DotApp server)) 0 s1)
        as (post & o & Hpost & ->).
      exists (pre ++ post), o. split; [eapply request_ended; eauto|].
      unfold after_callbacks. cbn. rewrite map_app, <- app_assoc. by destruct o.
    + rewrite after_callbacks_invoke. cbn.
      destruct (handle c1) as [c2|v c2] eqn:Hh; cbn.
      * set (s2 := {| httpCtx := c2; res_writer := res_writer s;
                      trace := (trace s ++ map Invoke pre) ++ [Invoke UserHandle] |}).
        destruct (runOnEndRequest_run (Modules (DotApp server)) 0 s2)
          as (post & o & Hpost & ->).
        exists (pre ++ UserHandle :: post), o. split; [eapply handler_returns; eauto|].
        unfold after_callbacks. cbn. rewrite map_app, <- !app_assoc. by destruct o.
      * exists (pre ++ [UserHandle]), (Panic v c2). split; [eapply handler_panics; eauto|].
        unfold after_callbacks. cbn. by rewrite map_app, app_assoc.
  - exists pre, (Panic v c1). split; [by apply pre_hook_panics | done].
Qed.

Lemma pipeline_calls_are_hooks server handle c calls o :
  pipeline_run server handle c calls o ->
  Forall (fun who => forall v, who <> ExceptionHandlerWith v) calls.
Proof.
  assert (forall i ms c calls o,
            hooks_run OnBeginRequest OnBeginRequestOf i ms c calls o ->
            Forall (fun who => forall v, who <> ExceptionHandlerWith v) calls) as HB.
  { intros i ms c0 calls0 o0 H%pre_hooks_run_in_order.
    eapply Forall_prefix; [apply H|].
    eapply Forall_impl; [apply begin_calls_are_pre_hooks|]. by intros ? [j ->]. }
  assert (forall i ms c calls o,
            hooks_run OnEndRequest OnEndRequestOf i ms c calls o ->
            Forall (fun who => forall v, who <> ExceptionHandlerWith v) calls) as HE.
  { intros i ms c0 calls0 o0 H%post_hooks_run_in_order.
    eapply Forall_prefix; [apply H|].
    eapply Forall_impl; [apply end_calls_are_post_hooks|]. by intros ? [j ->]. }
  destruct 1; rewrite ?Forall_app; repeat split; eauto.
Qed.

(** *** The deferred function *)

Lemma finalizer_exact env server rv s :
  (EnabledGzip (ServerConfig server) = true ->
   exists w, res_writer s = GzipResponseWriter w) ->
  finalizer env server rv s =
    match recovery_outcome server rv (httpCtx s) with
    | Return c =>
        Returned tt
          {| httpCtx := Context_release env c;
             res_writer := res_writer s;
             trace := trace s
                      ++ panic_handler_call server rv
                      ++ error_report env rv c
                      ++ [LoggerLog (access_record env c)
                            LogTarget_HttpRequest LogLevel_Debug]
                      ++ teardown server |}
    | Panic v c =>
        Panicked v
          {| httpCtx := c; res_writer := res_writer s;
             trace := trace s ++ panic_handler_call server rv |}
    end.
Proof.
  intros Hgz.
  unfold finalizer, teardown, recovery_outcome, panic_handler_call, error_report,
    error_record, access_record, invoke.
  destruct (EnabledGzip (ServerConfig server));
    [destruct (Hgz eq_refl) as [w0 Hw0] | clear Hgz];
    destruct rv as [v|];
    try (destruct (ExceptionHandler (DotApp server)) as [eh|]);
    unfold_M; cbn;
    try (destruct (eh (httpCtx s) v) as [c1|v1 c1]);
    cbn; rewrite ?Hw0; cbn; rewrite <- ?app_assoc; cbn; try done.
  all: by destruct s.
Qed.

(** *** Reading traces piecewise *)

Lemma callbacks_of_app a b : callbacks_of (a ++ b) = callbacks_of a ++ callbacks_of b.
Proof.
  induction a as [|e a IH]; [done|]. destruct e; cbn; rewrite ?IH; done.
Qed.

Lemma panic_handler_calls_app a b :
  panic_handler_calls (a ++ b) = panic_handler_calls a ++ panic_handler_calls b.
Proof.
  induction a as [|e a IH]; [done|].
  destruct e as [| | | | | | | | | | | | |[]]; cbn; rewrite ?IH; done.
Qed.

Lemma error_logs_app a b : error_logs (a ++ b) = error_logs a ++ error_logs b.
Proof.
  induction a as [|e a IH]; [done|].
  destruct e as [| | | | | | | | | |? ? []| | |]; cbn; rewrite ?IH; done.
Qed.

Lemma error_count_app a b : (error_count (a ++ b) = error_count a + error_count b)%Z.
Proof.
  induction a as [|e a IH]; [done|]. destruct e; cbn; rewrite ?IH; lia.
Qed.

Lemma cookies_of_app a b : cookies_of (a ++ b) = cookies_of a ++ cookies_of b.
Proof.
  induction a as [|e a IH]; [done|]. destruct e; cbn; rewrite ?IH; done.
Qed.

Lemma gets_app p a b : gets p (a ++ b) = gets p a + gets p b.
Proof. apply count_occ_app. Qed.

Lemma puts_app p a b : puts p (a ++ b) = puts p a + puts p b.
Proof. apply count_occ_app. Qed.

Lemma setup_events_quiet evs :
  Forall (fun e => is_setup_event e = true) evs ->
  callbacks_of evs = [] /\ panic_handler_calls evs = [] /\ error_logs evs = []
  /\ error_count evs = 0%Z /\ puts ResponsePool evs = 0 /\ puts ContextPool evs = 0
  /\ Forall (fun e => is_finalizer_event e = false) evs.
Proof.
  induction 1 as [|e evs He _ IH]; [by repeat split|].
  destruct IH as (? & ? & ? & ? & ? & ? & ?).
  destruct e; try discriminate; cbn; repeat split; try done; by constructor.
Qed.

Lemma invocations_quiet calls :
  callbacks_of (map Invoke calls) = calls
  /\ error_logs (map Invoke calls) = [] /\ error_count (map Invoke calls) = 0%Z
  /\ cookies_of (map Invoke calls) = []
  /\ (forall p, gets p (map Invoke calls) = 0) /\ (forall p, puts p (map Invoke calls) = 0).
Proof.
  induction calls as [|c calls (Hc & Hl & Hn & Hk & Hg & Hp)]; [by repeat split|].
  cbn. rewrite Hc. repeat split; done.
Qed.

Lemma request_count_app a b :
  (request_count (a ++ b) = request_count a + request_count b)%Z.
Proof.
  induction a as [|e a IH]; [done|]. destruct e; cbn; rewrite ?IH; lia.
Qed.

Lemma access_logs_app a b : access_logs (a ++ b) = access_logs a ++ access_logs b.
Proof.
  induction a as [|e a IH]; [done|].
  destruct e as [| | | | | | | | | |? [] []| | |]; cbn; rewrite ?IH; done.
Qed.

Lemma headers_set_app a b : headers_set (a ++ b) = headers_set a ++ headers_set b.
Proof.
  induction a as [|e a IH]; [done|]. destruct e; cbn; rewrite ?IH; done.
Qed.

Lemma cookies_quiet cookies :
  headers_set (map SetCookie cookies) = []
  /\ request_count (map SetCookie cookies) = 0%Z
  /\ access_logs (map SetCookie cookies) = []
  /\ cookies_of (map SetCookie cookies) = cookies.
Proof.
  induction cookies as [|c cookies (? & ? & ? & ?)]; [done|].
  cbn. repeat split; try done. by f_equal.
Qed.

Lemma invocations_uncounted calls :
  request_count (map Invoke calls) = 0%Z
  /\ access_logs (map Invoke calls) = []
  /\ headers_set (map Invoke calls) = [].
Proof. induction calls as [|c calls (? & ? & ?)]; [done|]. by cbn. Qed.

Lemma map_Invoke_inj (a b : list Callback) :
  map Invoke a = map Invoke b -> a = b.
Proof.
  revert b. induction a as [|x a IH]; intros [|y b]; cbn; try done.
  intros [= -> H]. f_equal. by apply IH.
Qed.

Lemma hooks_are_not_the_panic_handler calls :
  Forall (fun who => forall v, who <> ExceptionHandlerWith v) calls ->
  panic_handler_calls (map Invoke calls) = [].
Proof.
  induction 1 as [|who calls Hwho _ IH]; [done|].
  destruct who; cbn; try done. by destruct (Hwho v).
Qed.

Lemma invocations_not_teardown calls :
  Forall (fun e => is_teardown_event e = false) (map Invoke calls).
Proof. by apply Forall_forall; intros e [c [-> _]]%list_elem_of_fmap. Qed.

Lemma panic_handler_call_read server rv :
  panic_handler_calls (panic_handler_call server rv) =
    match rv, ExceptionHandler (DotApp server) with
    | Some v, Some _ => [v]
    | _, _ => []
    end
  /\ callbacks_of (panic_handler_call server rv) =
       map ExceptionHandlerWith (panic_handler_calls (panic_handler_call server rv))
  /\ error_logs (panic_handler_call server rv) = []
  /\ error_count (panic_handler_call server rv) = 0%Z
  /\ request_count (panic_handler_call server rv) = 0%Z
  /\ access_logs (panic_handler_call server rv) = []
  /\ (forall p, gets p (panic_handler_call server rv) = 0)
  /\ (forall p, puts p (panic_handler_call server rv) = 0)
  /\ Forall (fun e => is_teardown_event e = false) (panic_handler_call server rv)
  /\ Forall (fun e => is_finalizer_event e = true) (panic_handler_call server rv).
Proof.
  unfold panic_handler_call.
  destruct rv as [v|]; [destruct (ExceptionHandler (DotApp server))|];
    repeat split; try done; by repeat constructor.
Qed.

Lemma error_report_read env rv c :
  panic_handler_calls (error_report env rv c) = []
  /\ callbacks_of (error_report env rv c) = []
  /\ error_logs (error_report env rv c) =
       match rv with Some v => [error_record env c v] | None => [] end
  /\ error_count (error_report env rv c) =
       match rv with Some _ => 1%Z | None => 0%Z end
  /\ request_count (error_report env rv c) = 0%Z
  /\ access_logs (error_report env rv c) = []
  /\ (forall p, gets p (error_report env rv c) = 0)
  /\ (forall p, puts p (error_report env rv c) = 0)
  /\ Forall (fun e => is_teardown_event e = false) (error_report env rv c)
  /\ Forall (fun e => is_finalizer_event e = true) (error_report env rv c).
Proof.
  unfold error_report. destruct rv as [v|];
    repeat split; try done; by repeat constructor.
Qed.

Lemma teardown_read server :
  panic_handler_calls (teardown server) = [] /\ callbacks_of (teardown server) = []
  /\ error_logs (teardown server) = [] /\ error_count (teardown server) = 0%Z
  /\ request_count (teardown server) = 0%Z /\ access_logs (teardown server) = []
  /\ (gets ResponsePool (teardown server) = 0 /\ gets ContextPool (teardown server) = 0
      /\ puts ResponsePool (teardown server) = 1 /\ puts ContextPool (teardown server) = 1)
  /\ Forall (fun e => is_finalizer_event e = true) (teardown server)
  /\ last (teardown server) = Some (PoolPut ContextPool).
Proof.
  unfold teardown. destruct (EnabledGzip (ServerConfig server));
    repeat split; try done; by repeat constructor.
Qed.

(** *** Set-up in detail *)

Lemma setup_events_exact env server w r params s s1 :
  setup env server w r params s = Returned tt s1 ->
  exists cookies,
    trace s1 = trace s
               ++ [PoolGet ResponsePool; PoolGet ContextPool]
               ++ (if EnabledGzip (ServerConfig server)
                   then [SetHeader HeaderContentEncoding gzipScheme] else [])
               ++ [AddRequestCount 1]
               ++ map SetCookie cookies
    /\ res_writer s1 = (if EnabledGzip (ServerConfig server)
                        then GzipResponseWriter w else RawWriter w)
    /\ (EnabledSession (SessionConfig server) = false ->
        cookies = [] /\ SessionID (httpCtx s1) = "").
Proof.
  unfold setup, acquire, gzipStep, sessionStep, GetSessionManager.
  rewrite gzip_NewWriterLevel_default.
  destruct (EnabledGzip (ServerConfig server));
    (destruct (EnabledSession (SessionConfig server)); cbn [negb];
     [destruct (sessionManager server) as [manager|];
      [destruct (GetClientSessionID manager r) as [sessionId err];
       destruct (bool_decide (err = None) && negb (bool_decide (sessionId = "")))|]|]);
    unfold_M; cbn; intros [= <-]; cbn; rewrite <- ?app_assoc; cbn;
    first [ by exists [] | by eexists [_] ].
Qed.

(** What has been called when the deferred function is registered. *)
Lemma reaches_pipeline_events env server isHijack w r params s s2 :
  reaches_pipeline env server isHijack w r params s s2 ->
  exists before,
    trace s2 = trace s ++ before
    /\ (callbacks_of before = [] /\ panic_handler_calls before = []
        /\ error_logs before = [] /\ error_count before = 0%Z
        /\ request_count before = 1%Z /\ access_logs before = [])
    /\ (gets ResponsePool before = 1 /\ gets ContextPool before = 1
        /\ puts ResponsePool before = 0 /\ puts ContextPool before = 0)
    /\ Forall (fun e => is_teardown_event e = false) before
    /\ (EnabledGzip (ServerConfig server) = true ->
        exists w0, res_writer s2 = GzipResponseWriter w0).
Proof.
  intros (s1 & Hsetup & Hhijack).
  destruct (setup_events_exact _ _ _ _ _ _ _ Hsetup) as (cookies & Ht & Hw & _).
  destruct (hijackStep_continues _ _ _ _ Hhijack) as (_ & Hw2 & Ht2).
  eexists. rewrite Ht2, Ht, <- !app_assoc. split; [reflexivity|].
  assert (Forall (fun e => is_teardown_event e = false) (map SetCookie cookies)
          /\ callbacks_of (map SetCookie cookies) = []
          /\ panic_handler_calls (map SetCookie cookies) = []
          /\ error_logs (map SetCookie cookies) = []
          /\ error_count (map SetCookie cookies) = 0%Z
          /\ (forall p, gets p (map SetCookie cookies) = 0)
          /\ (forall p, puts p (map SetCookie cookies) = 0))
    as (Hc1 & Hc2 & Hc3 & Hc4 & Hc5 & Hc6 & Hc7).
  { clear. induction cookies as [|c cookies (? & ? & ? & ? & ? & ? & ?)];
      [by repeat split|]. cbn. repeat split; try done. by constructor. }
  destruct (cookies_quiet cookies) as (_ & Hq1 & Hq2 & _).
  rewrite !callbacks_of_app, !panic_handler_calls_app, !error_logs_app,
    !error_count_app, !request_count_app, !access_logs_app, !gets_app, !puts_app.
  rewrite Hc2, Hc3, Hc4, Hc5, !Hc6, !Hc7, Hq1, Hq2.
  split; [by destruct (EnabledGzip (ServerConfig server)), isHijack|].
  split; [by destruct (EnabledGzip (ServerConfig server)), isHijack|].
  split.
  - rewrite !Forall_app. repeat split; try done.
    + by repeat constructor.
    + destruct (EnabledGzip (ServerConfig server)); by repeat constructor.
    + by repeat constructor.
    + destruct isHijack; by repeat constructor.
  - intros Hgz. rewrite Hw2, Hw, Hgz. by eexists.
Qed.

(** The whole of a request that reaches the pipeline. *)
Lemma request_trace env server handle isHijack w r params s s2 :
  reaches_pipeline env server isHijack w r params s s2 ->
  exists before calls o,
    pipeline_run server handle (httpCtx s2) calls o
    /\ pipeline server handle s2 = after_callbacks o s2 calls
    /\ trace s2 = trace s ++ before
    /\ wrapRouterHandle env server handle isHijack w r params s =
         match recovery_outcome server (panic_of o) (context_of o) with
         | Return c =>
             Returned tt
               {| httpCtx := Context_release env c;
                  res_writer := res_writer s2;
                  trace := trace s ++ before ++ map Invoke calls
                           ++ panic_handler_call server (panic_of o)
                           ++ error_report env (panic_of o) c
                           ++ [LoggerLog (access_record env c)
                                 LogTarget_HttpRequest LogLevel_Debug]
                           ++ teardown server |}
         | Panic v c =>
             Panicked v
               {| httpCtx := c; res_writer := res_writer s2;
                  trace := trace s ++ before ++ map Invoke calls
                           ++ panic_handler_call server (panic_of o) |}
         end
    /\ (callbacks_of before = [] /\ panic_handler_calls before = []
        /\ error_logs before = [] /\ error_count before = 0%Z
        /\ request_count before = 1%Z /\ access_logs before = [])
    /\ (gets ResponsePool before = 1 /\ gets ContextPool before = 1
        /\ puts ResponsePool before = 0 /\ puts ContextPool before = 0)
    /\ Forall (fun e => is_teardown_event e = false) before.
Proof.
  intros Hreach.
  destruct (reaches_pipeline_events _ _ _ _ _ _ _ _ Hreach)
    as (before & Ht2 & Hread & Hpool & Htd & Hw2).
  destruct (pipeline_run_correct server handle s2) as (calls & o & Hrun & Hpipe).
  exists before, calls, o. split; [done|]. split; [done|]. split; [done|].
  split; [|done].
  rewrite (wrapRouterHandle_reaches _ _ _ _ _ _ _ _ _ Hreach), Hpipe.
  assert (recovered (after_callbacks o s2 calls) = panic_of o) as -> by by destruct o.
  rewrite finalizer_exact.
  - assert (httpCtx (state_of (after_callbacks o s2 calls)) = context_of o) as ->
      by by destruct o.
    assert (res_writer (state_of (after_callbacks o s2 calls)) = res_writer s2) as ->
      by by destruct o.
    assert (trace (state_of (after_callbacks o s2 calls))
            = trace s ++ before ++ map Invoke calls) as ->
      by (destruct o; cbn; by rewrite Ht2, <- app_assoc).
    destruct (recovery_outcome server (panic_of o) (context_of o));
      by rewrite <- !app_assoc.
  - intros Hgz. assert (res_writer (state_of (after_callbacks o s2 calls))
                        = res_writer s2) as -> by by destruct o.
    by apply Hw2.
Qed.

(** *** From the loops to the runs *)

Lemma runOnBeginRequest_returned i modules s s3 :
  runOnBeginRequest i modules s = Returned tt s3 ->
  hooks_run OnBeginRequest OnBeginRequestOf i modules (httpCtx s)
    (begin_calls i modules) (Return (httpCtx s3)).
Proof.
  intros H. destruct (runOnBeginRequest_run modules i s) as (calls & o & Hrun & Heq).
  rewrite H in Heq. destruct o as [c|v c]; [|done].
  injection Heq as ->. cbn.
  by rewrite <- (proj2 (pre_hooks_run_in_order _ _ _ _ _ Hrun) eq_refl).
Qed.

Lemma runOnBeginRequest_panicked i modules s v s3 :
  runOnBeginRequest i modules s = Panicked v s3 ->
  exists pre,
    hooks_run OnBeginRequest OnBeginRequestOf i modules (httpCtx s) pre
      (Panic v (httpCtx s3)).
Proof.
  intros H. destruct (runOnBeginRequest_run modules i s) as (calls & o & Hrun & Heq).
  rewrite H in Heq. destruct o as [c|v' c]; [done|].
  injection Heq as -> ->. cbn. by exists calls.
Qed.

Lemma hooks_run_begin_sound i modules calls o s :
  hooks_run OnBeginRequest OnBeginRequestOf i modules (httpCtx s) calls o ->
  runOnBeginRequest i modules s = after_callbacks o s calls.
Proof.
  intros Hrun.
  destruct (runOnBeginRequest_run modules i s) as (calls' & o' & Hrun' & ->).
  by destruct (hooks_run_unique _ _ _ _ _ _ _ Hrun _ _ Hrun') as [-> ->].
Qed.

Lemma hooks_run_end_sound i modules calls o s :
  hooks_run OnEndRequest OnEndRequestOf i modules (httpCtx s) calls o ->
  runOnEndRequest i modules s = after_callbacks o s calls.
Proof.
  intros Hrun.
  destruct (runOnEndRequest_run modules i s) as (calls' & o' & Hrun' & ->).
  by destruct (hooks_run_unique _ _ _ _ _ _ _ Hrun _ _ Hrun') as [-> ->].
Qed.

Lemma pipeline_run_sound server handle calls o s :
  pipeline_run server handle (httpCtx s) calls o ->
  pipeline server handle s = after_callbacks o s calls.
Proof.
  intros Hrun. unfold pipeline, handleStep, mbind, M_bind, getCtx.
  inversion Hrun as [c pre v c' Hpre|c pre c1 post o0 Hpre Hend Hpost
                     |c pre c1 v c2 Hpre Hend Hh|c pre c1 c2 post o0 Hpre Hend Hh Hpost];
    subst; rewrite (hooks_run_begin_sound _ _ _ _ _ Hpre); cbn; rewrite ?Hend; cbn.
  - done.
  - erewrite hooks_run_end_sound by exact Hpost.
    unfold after_callbacks. cbn. rewrite map_app, <- app_assoc. by destruct o.
  - rewrite after_callbacks_invoke. cbn. rewrite Hh.
    unfold after_callbacks. cbn. by rewrite map_app, app_assoc.
  - rewrite after_callbacks_invoke. cbn. rewrite Hh. cbn.
    erewrite hooks_run_end_sound by exact Hpost.
    unfold after_callbacks. cbn. rewrite map_app, <- !app_assoc. by destruct o.
Qed.

Lemma pipeline_run_unique server handle c calls o calls' o' :
  pipeline_run server handle c calls o ->
  pipeline_run server handle c calls' o' ->
  calls = calls' /\ o = o'.
Proof.
  intros H H'.
  set (s := {| httpCtx := c; res_writer := RawWriter Sample.writer; trace := [] |}).
  pose proof (pipeline_run_sound server handle calls o s H) as E.
  rewrite (pipeline_run_sound server handle calls' o' s H') in E.
  unfold after_callbacks in E. cbn in E.
  destruct o, o'; simplify_eq; split; try done; by apply map_Invoke_inj.
Qed.

(** *** What a request that reaches the pipeline amounts to *)

Lemma request_summary env server handle isHijack w r params s s2 :
  reaches_pipeline env server isHijack w r params s s2 ->
  let result := wrapRouterHandle env server handle isHijack w r params s in
  exists calls o evs,
    pipeline_run server handle (httpCtx s2) calls o
    /\ trace (state_of result) = trace s ++ evs
    /\ callbacks_of evs = calls ++ map ExceptionHandlerWith (panic_handler_calls evs)
    /\ panic_handler_calls evs =
         match panic_of o, ExceptionHandler (DotApp server) with
         | Some v, Some _ => [v]
         | _, _ => []
         end
    /\ request_count evs = 1%Z
    /\ (gets ResponsePool evs = 1 /\ gets ContextPool evs = 1)
    /\ match recovery_outcome server (panic_of o) (context_of o) with
       | Return c =>
           recovered result = None
           /\ httpCtx (state_of result) = Context_release env c
           /\ error_logs evs =
                match panic_of o with
                | Some v => [error_record env c v]
                | None => []
                end
           /\ error_count evs = match panic_of o with Some _ => 1%Z | None => 0%Z end
           /\ access_logs evs = [access_record env c]
           /\ (puts ResponsePool evs = 1 /\ puts ContextPool evs = 1)
           /\ exists front,
                evs = front ++ teardown server
                /\ Forall (fun e => is_teardown_event e = false) front
       | Panic v c =>
           recovered result = Some v
           /\ httpCtx (state_of result) = c
           /\ error_logs evs = [] /\ error_count evs = 0%Z
           /\ access_logs evs = []
           /\ (puts ResponsePool evs = 0 /\ puts ContextPool evs = 0)
       end.
Proof.
  intros Hreach result. subst result.
  destruct (request_trace _ _ handle _ _ _ _ _ _ Hreach)
    as (before & calls & o & Hrun & _ & _ & -> &
        (Hc & Hp & Hl & Hn & Hrc & Hal) & (Hg1 & Hg2 & Hp1 & Hp2) & Htd).
  pose proof (pipeline_calls_are_hooks _ _ _ _ _ Hrun) as Hhooks.
  pose proof (hooks_are_not_the_panic_handler _ Hhooks) as Hph.
  destruct (invocations_quiet calls) as (Hic & Hil & Hin & _ & Hig & Hip).
  destruct (invocations_uncounted calls) as (Hirc & Hial & _).
  destruct (panic_handler_call_read server (panic_of o))
    as (Hh1 & Hh2 & Hh3 & Hh4 & Hh5 & Hh6 & Hh7 & Hh8 & Hh9 & _).
  exists calls, o.
  destruct (recovery_outcome server (panic_of o) (context_of o)) as [c|v c] eqn:Hrec.
  - destruct (error_report_read env (panic_of o) c)
      as (He1 & He2 & He3 & He4 & He5 & He6 & He7 & He8 & He9 & _).
    destruct (teardown_read server)
      as (Ht1 & Ht2 & Ht3 & Ht4 & Ht5 & Ht6 & (Ht7 & Ht8 & Ht9 & Ht10) & _).
    eexists. cbn [state_of trace httpCtx recovered]. split; [done|].
    split; [reflexivity|].
    rewrite !callbacks_of_app, !panic_handler_calls_app, !error_logs_app,
      !error_count_app, !request_count_app, !access_logs_app, !gets_app, !puts_app.
    rewrite Hc, Hp, Hl, Hn, Hrc, Hal, Hg1, Hg2, Hp1, Hp2, Hic, Hil, Hin, Hirc, Hial,
      !Hig, !Hip, Hph, Hh1, Hh2, Hh3, Hh4, Hh5, Hh6, !Hh7, !Hh8,
      He1, He2, He3, He4, He5, He6, !He7, !He8,
      Ht1, Ht2, Ht3, Ht4, Ht5, Ht6, Ht7, Ht8, Ht9, Ht10, Hh1.
    cbn. rewrite ?app_nil_r.
    repeat split; try done.
    + by destruct (panic_of o).
    + exists (before ++ map Invoke calls ++ panic_handler_call server (panic_of o)
              ++ error_report env (panic_of o) c
              ++ [LoggerLog (access_record env c) LogTarget_HttpRequest LogLevel_Debug]).
      split; [by rewrite <- !app_assoc|].
      apply Forall_app. split; [exact Htd|].
      apply Forall_app. split; [apply invocations_not_teardown|].
      apply Forall_app. split; [exact Hh9|].
      apply Forall_app. split; [exact He9|].
      constructor; [reflexivity | constructor].
  - eexists. cbn [state_of trace httpCtx recovered]. split; [done|].
    split; [reflexivity|].
    rewrite !callbacks_of_app, !panic_handler_calls_app, !error_logs_app,
      !error_count_app, !request_count_app, !access_logs_app, !gets_app, !puts_app.
    rewrite Hc, Hp, Hl, Hn, Hrc, Hal, Hg1, Hg2, Hp1, Hp2, Hic, Hil, Hin, Hirc, Hial,
      !Hig, !Hip, Hph, Hh1, Hh2, Hh3, Hh4, Hh5, Hh6, !Hh7, !Hh8, Hh1.
    cbn. rewrite ?app_nil_r.
    repeat split; done.
Qed.


(* ------------------------------------------------------------------ *)
(** ** Claims about [wrapRouterHandle] *)

(** C8. With the streaming flag set and a hijack attempt that fails with
    [e], a wrapper that got through set-up answers with
    [WriteHeader(500)], sets the content type, writes [e] as the body and
    returns normally, leaving the context with status 500 and [e] added to
    its byte count. These are its last calls: before them only set-up
    calls were made, so no pre-hook, handler or post-hook is invoked and
    nothing of the deferred function (recovery, logging, error count,
    release) runs. *)
Theorem hijack_failure_answers_500_and_returns env server handle w r params s s1 e :
  setup env server w r params s = Returned tt s1 ->
  http.w_hijack w = Some e ->
  exists s' evs,
    wrapRouterHandle env server handle true w r params s = Returned tt s'
    /\ httpCtx s' =
         Context_WriteString e
           (Context_WriteHeader http.StatusInternalServerError (httpCtx s1))
    /\ Status (Response_ (httpCtx s')) = 500%Z
    /\ trace s' = trace s ++ evs
    /\ (exists before,
          evs = before ++ [Hijack; WriteHeader 500;
                           ResponseHeaderSet HeaderContentType CharsetUTF8;
                           WriteString e]
          /\ Forall (fun ev => is_setup_event ev = true) before)
    /\ callbacks_of evs = []
    /\ Forall (fun ev => is_finalizer_event ev = false) evs.
Proof.
  intros Hsetup Hhijack.
  destruct (setup_returns _ _ _ _ _ _ _ Hsetup) as (before & Ht & Hall & _).
  destruct (setup_events_quiet _ Hall) as (Hc & _ & _ & _ & _ & _ & Hq).
  eexists _, (before ++ _). split.
  { unfold wrapRouterHandle, mbind, M_bind. rewrite Hsetup.
    rewrite (hijackStep_fails _ _ _ Hhijack). reflexivity. }
  cbn. split; [done|]. split; [done|]. split; [by rewrite Ht, <- app_assoc|].
  split; [by eexists|]. split.
  - by rewrite callbacks_of_app, Hc.
  - apply Forall_app. split; [done|]. by repeat constructor.
Qed.

(** A request on a connection that cannot be hijacked. *)
Lemma hijack_failure_witness :
  exists s' evs,
    wrapRouterHandle Sample.env
      (Sample.server (Sample.application (Sample.two_modules Sample.returns) None)
         false false false)
      Sample.returns true Sample.writer_no_hijack Sample.plain_request []
      Sample.stale = Returned tt s'
    /\ Status (Response_ (httpCtx s')) = 500%Z
    /\ trace s' = trace Sample.stale ++ evs
    /\ callbacks_of evs = [].
Proof.
  edestruct (hijack_failure_answers_500_and_returns Sample.env
      (Sample.server (Sample.application (Sample.two_modules Sample.returns) None)
         false false false)
      Sample.returns Sample.writer_no_hijack Sample.plain_request []
      Sample.stale) as (s' & evs & H1 & _ & H0 & H2 & _ & H3 & _);
    [reflexivity | reflexivity |].
  by exists s', evs.
Defined.




(** C6, as the code has it. When the pre-hooks have all returned and left
    the ended flag set, the user handler is not invoked and the post-hooks
    run after the pre-hooks, in registration order, each on the context its
    predecessor left: all of them when none panics, otherwise up to and
    including the first one that panics (after which only the panic
    handler, if registered, is called). *)
Theorem ended_flag_skips_handler_but_not_post_hooks
    env server handle isHijack w r params s s2 s3 :
  reaches_pipeline env server isHijack w r params s s2 ->
  runOnBeginRequest 0 (Modules (DotApp server)) s2 = Returned tt s3 ->
  isEnd (httpCtx s3) = true ->
  exists post o evs,
    hooks_run OnEndRequest OnEndRequestOf 0 (Modules (DotApp server))
      (httpCtx s3) post o
    /\ trace (state_of (wrapRouterHandle env server handle isHijack w r params s))
       = trace s ++ evs
    /\ callbacks_of evs =
         begin_calls 0 (Modules (DotApp server)) ++ post
         ++ map ExceptionHandlerWith (panic_handler_calls evs)
    /\ (UserHandle ∉ callbacks_of evs)
    /\ post `prefix_of` end_calls 0 (Modules (DotApp server))
    /\ (panic_of o = None ->
        post = end_calls 0 (Modules (DotApp server))
        /\ panic_handler_calls evs = []).
Proof.
  intros Hreach Hbegin Hend.
  pose proof (runOnBeginRequest_returned _ _ _ _ Hbegin) as Hpre.
  destruct (runOnEndRequest_run (Modules (DotApp server)) 0 s3)
    as (post & o & Hpost & _).
  destruct (request_summary _ _ handle _ _ _ _ _ _ Hreach)
    as (calls & o' & evs & Hrun & Ht & Hc & Hph & _).
  destruct (pipeline_run_unique _ _ _ _ _ _ _ Hrun
              (request_ended _ _ _ _ _ _ _ Hpre Hend Hpost)) as [-> ->].
  destruct (post_hooks_run_in_order _ _ _ _ _ Hpost) as [Hprefix Hall].
  exists post, o, evs. split; [done|]. split; [done|].
  split; [by rewrite Hc, <- app_assoc|]. split; [|split; [done|]].
  - rewrite Hc, !elem_of_app. intros [[H|H]|H].
    + pose proof (begin_calls_are_pre_hooks (Modules (DotApp server)) 0) as HB.
      rewrite Forall_forall in HB. by destruct (HB _ H).
    + destruct Hprefix as [rest Hrest].
      assert (UserHandle ∈ end_calls 0 (Modules (DotApp server))) as H'
        by (rewrite Hrest, elem_of_app; by left).
      clear H. rename H' into H.
      pose proof (end_calls_are_post_hooks (Modules (DotApp server)) 0) as HE.
      rewrite Forall_forall in HE. by destruct (HE _ H).
    + by apply list_elem_of_fmap in H as (v & ? & _).
  - intros Hn. split; [by apply Hall|]. by rewrite Hph, Hn.
Qed.

(** A first module whose pre-hook ends the request. *)
Lemma ended_flag_witness :
  exists evs,
    trace (state_of
      (wrapRouterHandle Sample.env
         (Sample.server
            (Sample.application (Sample.two_modules Sample.ends_request) None)
            false false false)
         (Sample.panics "never reached") false Sample.writer
         Sample.plain_request [] Sample.stale)) = trace Sample.stale ++ evs
    /\ callbacks_of evs = [OnBeginRequestOf 0; OnEndRequestOf 0; OnEndRequestOf 1]
    /\ (UserHandle ∉ callbacks_of evs).
Proof.
  edestruct (ended_flag_skips_handler_but_not_post_hooks Sample.env
      (Sample.server
         (Sample.application (Sample.two_modules Sample.ends_request) None)
         false false false)
      (Sample.panics "never reached") false Sample.writer Sample.plain_request []
      Sample.stale) as (post & o & evs & _ & H2 & _ & H3 & _).
  - eexists. split; reflexivity.
  - reflexivity.
  - reflexivity.
  - exists evs. split; [exact H2|]. split; [|exact H3].
    vm_compute in H2. by rewrite <- H2.
Defined.

(** C6, as stated, fails: the first module's pre-hook ends the request and
    its post-hook panics; the second module's post-hook is registered and
    never runs. *)
Lemma post_hook_panic_stops_the_post_hooks :
  let modules :=
    [ {| OnBeginRequest := Some Sample.ends_request;
         OnEndRequest := Some (Sample.panics "late") |};
      {| OnBeginRequest := None; OnEndRequest := Some Sample.returns |} ] in
  let result :=
    wrapRouterHandle Sample.env
      (Sample.server (Sample.application modules None) false false false)
      Sample.returns false Sample.writer Sample.plain_request [] Sample.stale in
  end_calls 0 modules = [OnEndRequestOf 0; OnEndRequestOf 1]
  /\ callbacks_of (trace (state_of result)) = [OnBeginRequestOf 0; OnEndRequestOf 0]
  /\ (Invoke (OnEndRequestOf 1) ∉ trace (state_of result)).
Proof.
  vm_compute. repeat split; try done; intros H;
    repeat (apply elem_of_cons in H as [H|H]; [discriminate|]);
    by apply elem_of_nil in H.
Qed.

(** C5, as the code has it. When the user handler is reached and panics
    with [v], leaving the context as [c], the application's panic handler,
    if registered, is called exactly once, with [c] and [v]. If it returns
    (or none is registered), the wrapper returns normally, exactly one
    record is logged at error severity, built from the context the panic
    handler left, and the error counter is raised by exactly 1. If the
    panic handler itself panics, the deferred function stops there: no
    error record is logged, the error counter is not raised, and the new
    panic leaves the wrapper. *)
Theorem handler_panic_is_recovered_unless_the_panic_handler_panics
    env server handle isHijack w r params s s2 s3 v c :
  reaches_pipeline env server isHijack w r params s s2 ->
  runOnBeginRequest 0 (Modules (DotApp server)) s2 = Returned tt s3 ->
  isEnd (httpCtx s3) = false ->
  handle (httpCtx s3) = Panic v c ->
  let result := wrapRouterHandle env server handle isHijack w r params s in
  exists evs,
    trace (state_of result) = trace s ++ evs
    /\ panic_handler_calls evs =
         match ExceptionHandler (DotApp server) with
         | Some _ => [v]
         | None => []
         end
    /\ match recovery_outcome server (Some v) c with
       | Return c' =>
           recovered result = None
           /\ httpCtx (state_of result) = Context_release env c'
           /\ error_logs evs = [error_record env c' v]
           /\ error_count evs = 1%Z
       | Panic v' c' =>
           recovered result = Some v'
           /\ error_logs evs = []
           /\ error_count evs = 0%Z
       end.
Proof.
  intros Hreach Hbegin Hend Hpanic result.
  pose proof (runOnBeginRequest_returned _ _ _ _ Hbegin) as Hpre.
  destruct (request_summary _ _ handle _ _ _ _ _ _ Hreach)
    as (calls & o & evs & Hrun & Ht & _ & Hph & _ & _ & Hrec).
  destruct (pipeline_run_unique _ _ _ _ _ _ _ Hrun
              (handler_panics _ _ _ _ _ _ _ Hpre Hend Hpanic)) as [-> ->].
  cbn [panic_of context_of] in Hph, Hrec.
  exists evs. split; [exact Ht|]. split; [exact Hph|].
  destruct (recovery_outcome server (Some v) c) as [c'|v' c'].
  - by destruct Hrec as (? & ? & ? & ? & _).
  - by destruct Hrec as (? & _ & ? & ? & _).
Qed.

(** A handler that panics with ["boom"], and a panic handler that
    answers 500; gzip, sessions and hijack all on. *)
Lemma handler_panic_witness :
  let result :=
    wrapRouterHandle Sample.env
      (Sample.server
         (Sample.application (Sample.two_modules Sample.returns)
            (Some Sample.answer_500))
         true true false)
      (Sample.panics "boom") true Sample.writer Sample.plain_request []
      Sample.stale in
  exists evs,
    recovered result = None
    /\ trace (state_of result) = trace Sample.stale ++ evs
    /\ panic_handler_calls evs = ["boom"]
    /\ length (error_logs evs) = 1
    /\ error_count evs = 1%Z.
Proof.
  intros result.
  edestruct (handler_panic_is_recovered_unless_the_panic_handler_panics Sample.env
      (Sample.server
         (Sample.application (Sample.two_modules Sample.returns)
            (Some Sample.answer_500))
         true true false)
      (Sample.panics "boom") true Sample.writer Sample.plain_request []
      Sample.stale) as (evs & H1 & H2 & (H3 & _ & H4 & H5)).
  - eexists. split; vm_compute; reflexivity.
  - vm_compute; reflexivity.
  - reflexivity.
  - reflexivity.
  - exists evs. split; [exact H3|]. split; [exact H1|].
    split; [exact H2|]. rewrite H4. split; [reflexivity | exact H5].
Defined.

(** C5, as stated, fails: the handler panics and the registered panic
    handler panics in turn. It has been called once, with the original
    value, but no error is logged or counted and the wrapper panics. *)
Lemma panic_handler_panic_leaves_the_wrapper :
  let result :=
    wrapRouterHandle Sample.env
      (Sample.server
         (Sample.application [] (Some Sample.handler_fails)) false false false)
      (Sample.panics "boom") false Sample.writer Sample.plain_request []
      Sample.stale in
  panic_handler_calls (trace (state_of result)) = ["boom"]
  /\ recovered result = Some "panic handler failed"
  /\ error_logs (trace (state_of result)) = []
  /\ error_count (trace (state_of result)) = 0%Z.
Proof. vm_compute. done. Qed.

(** Once the deferred function is registered, every exit on which the
    panic handler is not called or returns (return, short-circuit, panic in
    a hook or in the handler) gives both pooled objects back exactly once. *)
Lemma pipeline_exit_releases_exactly_once env server handle isHijack w r params s s2 :
  reaches_pipeline env server isHijack w r params s s2 ->
  (forall v c v' c',
     recovery_outcome server (Some v) c <> Panic v' c') ->
  exists s' evs,
    wrapRouterHandle env server handle isHijack w r params s = Returned tt s'
    /\ trace s' = trace s ++ evs
    /\ gets ResponsePool evs = 1 /\ puts ResponsePool evs = 1
    /\ gets ContextPool evs = 1 /\ puts ContextPool evs = 1.
Proof.
  intros Hreach Hok.
  destruct (request_summary _ _ handle _ _ _ _ _ _ Hreach)
    as (calls & o & evs & _ & Ht & _ & _ & _ & (Hg1 & Hg2) & Hrec).
  destruct (recovery_outcome server (panic_of o) (context_of o)) as [c|v c] eqn:E.
  - destruct Hrec as (Hr & _ & _ & _ & _ & (Hp1 & Hp2) & _).
    destruct (wrapRouterHandle env server handle isHijack w r params s)
      as [[] s'|v s']; [|done].
    by exists s', evs.
  - destruct o as [c0|v0 c0]; cbn in E; [done|]. by destruct (Hok _ _ _ _ E).
Qed.

(** C1, at a request whose hijack attempt fails: the response and the
    context are taken from their pools and neither is put back. *)
Theorem hijack_failure_keeps_pooled_objects :
  let evs :=
    trace (state_of
      (wrapRouterHandle Sample.env
         (Sample.server (Sample.application [] None) false false false)
         Sample.returns true Sample.writer_no_hijack Sample.plain_request []
         Sample.stale)) in
  gets ResponsePool evs = 1 /\ puts ResponsePool evs = 0
  /\ gets ContextPool evs = 1 /\ puts ContextPool evs = 0.
Proof. vm_compute. done. Qed.

(** C3, as stated, fails: with two registered post-hooks and a handler
    that panics, no post-hook is invoked. *)
Lemma post_hooks_skipped_when_handler_panics :
  let server :=
    Sample.server (Sample.application (Sample.two_modules Sample.returns) None)
      false false false in
  let result :=
    wrapRouterHandle Sample.env server (Sample.panics "boom") false
      Sample.writer Sample.plain_request [] Sample.stale in
  end_calls 0 (Modules (DotApp server)) = [OnEndRequestOf 0; OnEndRequestOf 1]
  /\ callbacks_of (trace (state_of result)) = [OnBeginRequestOf 0; UserHandle]
  /\ (Invoke (OnEndRequestOf 0) ∉ trace (state_of result))
  /\ (Invoke (OnEndRequestOf 1) ∉ trace (state_of result)).
Proof.
  vm_compute. repeat split; try done; intros H;
    repeat (apply elem_of_cons in H as [H|H]; [discriminate|]);
    by apply elem_of_nil in H.
Qed.

(** C3, as the code has it. Once the deferred function is registered, the
    callbacks are those of a run of the pipeline: the pre-hooks in
    registration order, the handler unless the ended flag is set after the
    pre-hooks, the post-hooks in registration order, each on the context
    its predecessor left, the run ending with the first callback that
    panics. So post-hooks run after a handler that returned or was
    short-circuited, and are skipped when a pre-hook or the handler
    panics. The calls of the deferred function come after every callback.
    It is the last thing the wrapper does: it runs to its end, putting the
    context back, and the wrapper returns normally, unless the panic
    handler it calls panics; then that call is the last one and the panic
    leaves the wrapper. *)
Theorem callbacks_run_in_order_then_finalizer
    env server handle isHijack w r params s s2 :
  reaches_pipeline env server isHijack w r params s s2 ->
  let result := wrapRouterHandle env server handle isHijack w r params s in
  exists calls o fin,
    pipeline_run server handle (httpCtx s2) calls o
    /\ trace (state_of result) = trace s2 ++ map Invoke calls ++ fin
    /\ Forall (fun e => is_finalizer_event e = true) fin
    /\ match recovery_outcome server (panic_of o) (context_of o) with
       | Return _ =>
           recovered result = None
           /\ last fin = Some (PoolPut ContextPool)
       | Panic v' _ =>
           recovered result = Some v'
           /\ exists v, panic_of o = Some v
                        /\ fin = [Invoke (ExceptionHandlerWith v)]
       end.
Proof.
  intros Hreach result. subst result.
  destruct (request_trace _ _ handle _ _ _ _ _ _ Hreach)
    as (before & calls & o & Hrun & _ & Ht2 & -> & _).
  destruct (panic_handler_call_read server (panic_of o))
    as (_ & _ & _ & _ & _ & _ & _ & _ & _ & Hfin1).
  exists calls, o.
  destruct (recovery_outcome server (panic_of o) (context_of o)) as [c|v' c] eqn:E.
  - destruct (error_report_read env (panic_of o) c)
      as (_ & _ & _ & _ & _ & _ & _ & _ & _ & Hfin2).
    destruct (teardown_read server) as (_ & _ & _ & _ & _ & _ & _ & Hfin3 & Hlast).
    exists (panic_handler_call server (panic_of o) ++ error_report env (panic_of o) c
            ++ [LoggerLog (access_record env c) LogTarget_HttpRequest LogLevel_Debug]
            ++ teardown server).
    split; [done|]. cbn [state_of trace recovered].
    split; [by rewrite Ht2, <- !app_assoc|]. split.
    + rewrite !Forall_app. repeat split; try done. by repeat constructor.
    + split; [done|]. unfold teardown.
      change [PoolPut ResponsePool; ContextRelease; PoolPut ContextPool]
        with ([PoolPut ResponsePool; ContextRelease] ++ [PoolPut ContextPool]).
      rewrite !app_assoc. by rewrite last_snoc.
  - exists (panic_handler_call server (panic_of o)).
    split; [done|]. cbn [state_of trace recovered].
    split; [by rewrite Ht2, <- !app_assoc|]. split; [done|]. split; [done|].
    unfold recovery_outcome, panic_handler_call in *.
    destruct (panic_of o) as [v|]; [|done].
    destruct (ExceptionHandler (DotApp server)); [|done]. by exists v.
Qed.

(** A handler that panics after one pre-hook: it is the last callback. *)
Lemma callbacks_order_witness :
  exists calls o fin,
    pipeline_run
      (Sample.server (Sample.application (Sample.two_modules Sample.returns) None)
         false false false)
      (Sample.panics "boom")
      (HttpContext_Reset Sample.env
         (Response_Reset Sample.env (RawWriter Sample.writer))
         Sample.plain_request [])
      calls o
    /\ trace (state_of
         (wrapRouterHandle Sample.env
            (Sample.server
               (Sample.application (Sample.two_modules Sample.returns) None)
               false false false)
            (Sample.panics "boom") false Sample.writer Sample.plain_request []
            Sample.stale))
       = [PoolGet ResponsePool; PoolGet ContextPool; AddRequestCount 1]
         ++ map Invoke calls ++ fin
    /\ Forall (fun e => is_finalizer_event e = true) fin.
Proof.
  edestruct (callbacks_run_in_order_then_finalizer Sample.env
      (Sample.server (Sample.application (Sample.two_modules Sample.returns) None)
         false false false)
      (Sample.panics "boom") false Sample.writer Sample.plain_request []
      Sample.stale) as (calls & o & fin & H1 & H2 & H3 & _).
  - eexists. split; reflexivity.
  - exists calls, o, fin. split; [exact H1|]. split; [exact H2 | exact H3].
Defined.

(** * Further properties *)

(** ** Offline mode *)

(** X1. After [SetOffline(true, text, url)] every request that is not a
    WebSocket upgrade is served by the application's offline handler, on a
    writer already carrying the [Server] header, and never by the router;
    after [SetOffline(false, ...)] it is the router. The text and the URL
    passed to [SetOffline] play no part. *)
Theorem offline_mode_serves_offline_handler mux server w req offlineText offlineUrl :
  checkIsWebSocketRequest req = false ->
  ServeHTTP mux (SetOffline server true offlineText offlineUrl) w req =
    OfflineServer (DotApp server)
      (http.set_w_header (http.Header_Set HeaderServer DefaultServerName) w) req
  /\ ServeHTTP mux (SetOffline server false offlineText offlineUrl) w req =
       Router server
         (http.set_w_header (http.Header_Set HeaderServer DefaultServerName) w) req.
Proof.
  intros H. split; by rewrite (ServeHTTP_dispatch _ _ _ _ H).
Qed.

Lemma offline_mode_witness :
  http.w_body
    (ServeHTTP (Sample.probe "DefaultServeMux")
       (SetOffline (Sample.server (Sample.application [] None) false false false)
          true "closed for maintenance" "/maintenance.html")
       Sample.writer Sample.plain_request)
  = ["OfflineServer"; "dotweb"].
Proof.
  rewrite (proj1 (offline_mode_serves_offline_handler (Sample.probe "DefaultServeMux")
             (Sample.server (Sample.application [] None) false false false)
             Sample.writer Sample.plain_request
             "closed for maintenance" "/maintenance.html" eq_refl)).
  reflexivity.
Defined.

(** X2. Offline mode does not apply to WebSocket upgrade requests: a
    request with [Connection: Upgrade] still goes to the default mux,
    untouched, when the server is offline. *)
Theorem upgrade_requests_bypass_offline_mode mux server w req offlineText offlineUrl :
  http.Header_Get (http.Header req) "Connection" = "Upgrade" ->
  ServeHTTP mux (SetOffline server true offlineText offlineUrl) w req = mux w req.
Proof. intros H. by apply ServeHTTP_upgrade, checkIsWebSocketRequest_true. Qed.

Lemma upgrade_bypass_witness :
  http.w_body
    (ServeHTTP (Sample.probe "DefaultServeMux")
       (SetOffline (Sample.server (Sample.application [] None) false false false)
          true "closed for maintenance" "/maintenance.html")
       Sample.writer (Sample.connection "Upgrade"))
  = ["DefaultServeMux"; ""].
Proof.
  rewrite (upgrade_requests_bypass_offline_mode (Sample.probe "DefaultServeMux")
             (Sample.server (Sample.application [] None) false false false)
             Sample.writer (Sample.connection "Upgrade")
             "closed for maintenance" "/maintenance.html" eq_refl).
  reflexivity.
Defined.

(** ** checkIsDebugRequest *)

Lemma prefix_iff_append (p s : string) :
  String.prefix p s = true <-> exists rest, s = p +:+ rest.
Proof.
  revert s. induction p as [|a p IH]; intros s.
  - split; [intros _; by exists s|]. intros _. by destruct s.
  - destruct s as [|b s]; cbn.
    + split; [done|]. by intros [rest H].
    + destruct (Ascii.ascii_dec a b) as [->|Hne].
      * rewrite IH. split; intros [rest H]; exists rest.
        -- by rewrite H.
        -- change (String b p +:+ rest) with (String b (p +:+ rest)) in H. congruence.
      * split; [done|]. intros [rest H].
        change (String a p +:+ rest) with (String a (p +:+ rest)) in H. congruence.
Qed.

Lemma index_zero_iff_prefix (p s : string) :
  p <> "" -> (String.index 0 p s = Some 0 <-> String.prefix p s = true).
Proof.
  intros Hp. destruct s as [|b s].
  - cbn. destruct p; [done|]. split; done.
  - cbn [String.index]. destruct (String.prefix p (String b s)).
    + split; done.
    + destruct (String.index 0 p s); split; done.
Qed.

(** X3. [checkIsDebugRequest] answers true exactly for the requests whose
    [RequestURI] starts with ["/debug/"]: an occurrence further in, or
    ["/debug"] without the slash, does not count. *)
Theorem checkIsDebugRequest_is_prefix_test req :
  checkIsDebugRequest req = true
  <-> exists rest, http.RequestURI req = "/debug/" +:+ rest.
Proof.
  rewrite <- prefix_iff_append, <- index_zero_iff_prefix by done.
  unfold checkIsDebugRequest, strings_Index.
  destruct (String.index 0 "/debug/" (http.RequestURI req)) as [n|].
  - case_decide as H; split; try done.
    + intros _. f_equal. lia.
    + intros [= ->]. done.
  - case_decide; split; done.
Qed.


(** ** Set-up: sessions and gzip *)

(** X4. With sessions disabled, set-up leaves the context's [SessionID]
    empty and never calls [SetCookie], whatever cookie the client presents
    and whether or not a session manager exists. *)
Theorem disabled_sessions_bind_nothing env server w r params s s1 :
  EnabledSession (SessionConfig server) = false ->
  setup env server w r params s = Returned tt s1 ->
  SessionID (httpCtx s1) = ""
  /\ exists evs, trace s1 = trace s ++ evs /\ cookies_of evs = [].
Proof.
  intros Hoff Hsetup.
  destruct (setup_events_exact _ _ _ _ _ _ _ Hsetup) as (cookies & Ht & _ & Hs).
  destruct (Hs Hoff) as [-> Hid]. split; [done|].
  eexists. split; [exact Ht|]. by destruct (EnabledGzip (ServerConfig server)).
Qed.
Lemma disabled_sessions_witness :
  SessionID
    (httpCtx (state_of
       (setup Sample.env
          (Sample.server (Sample.application [] None) false false false)
          Sample.writer (Sample.request {[ "Cookie" := ["abc"] ]}) []
          Sample.stale))) = "".
Proof.
  eapply (disabled_sessions_bind_nothing Sample.env
            (Sample.server (Sample.application [] None) false false false)
            Sample.writer (Sample.request {[ "Cookie" := ["abc"] ]}) []
            Sample.stale); reflexivity.
Defined.


(** X5. With gzip enabled, set-up calls [SetHeader("Content-Encoding",
    "gzip")] exactly once and leaves the pooled response bound to a
    [gzipResponseWriter] over the network writer; with gzip disabled it
    sets no header and the response stays bound to the network writer. *)
Theorem gzip_setting_decides_content_encoding env server w r params s s1 :
  setup env server w r params s = Returned tt s1 ->
  exists evs,
    trace s1 = trace s ++ evs
    /\ (EnabledGzip (ServerConfig server) = true ->
        headers_set evs = [(HeaderContentEncoding, gzipScheme)]
        /\ res_writer s1 = GzipResponseWriter w)
    /\ (EnabledGzip (ServerConfig server) = false ->
        headers_set evs = [] /\ res_writer s1 = RawWriter w).
Proof.
  intros Hsetup.
  destruct (setup_events_exact _ _ _ _ _ _ _ Hsetup) as (cookies & Ht & Hw & _).
  eexists. split; [exact Ht|].
  destruct (cookies_quiet cookies) as (Hh & _).
  destruct (EnabledGzip (ServerConfig server)); cbn; rewrite Hh; split; done.
Qed.
Lemma gzip_setting_witness :
  exists s1 evs,
    setup Sample.env (Sample.server (Sample.application [] None) true false false)
      Sample.writer Sample.plain_request [] Sample.stale = Returned tt s1
    /\ trace s1 = trace Sample.stale ++ evs
    /\ headers_set evs = [("Content-Encoding", "gzip")]
    /\ res_writer s1 = GzipResponseWriter Sample.writer.
Proof.
  eexists.
  edestruct (gzip_setting_decides_content_encoding Sample.env
               (Sample.server (Sample.application [] None) true false false)
               Sample.writer Sample.plain_request [] Sample.stale)
    as (evs & Ht & Hon & _); [reflexivity|].
  exists evs. split; [reflexivity|]. split; [exact Ht|]. exact (Hon eq_refl).
Defined.




(** ** The deferred function in detail *)

Lemma after_callbacks_read o s calls :
  recovered (after_callbacks o s calls) = panic_of o
  /\ httpCtx (state_of (after_callbacks o s calls)) = context_of o.
Proof. by destruct o. Qed.

(** [request_summary], read off the pipeline function. *)
Lemma request_summary_of_pipeline env server handle isHijack w r params s s2 :
  reaches_pipeline env server isHijack w r params s s2 ->
  let p := pipeline server handle s2 in
  let result := wrapRouterHandle env server handle isHijack w r params s in
  exists evs,
    trace (state_of result) = trace s ++ evs
    /\ panic_handler_calls evs =
         match recovered p, ExceptionHandler (DotApp server) with
         | Some v, Some _ => [v]
         | _, _ => []
         end
    /\ request_count evs = 1%Z
    /\ match recovery_outcome server (recovered p) (httpCtx (state_of p)) with
       | Return c =>
           recovered result = None
           /\ httpCtx (state_of result) = Context_release env c
           /\ error_logs evs = match recovered p with
                               | Some v => [error_record env c v]
                               | None => []
                               end
           /\ error_count evs = match recovered p with
                                | Some _ => 1%Z
                                | None => 0%Z
                                end
           /\ access_logs evs = [access_record env c]
           /\ exists front,
                evs = front ++ teardown server
                /\ Forall (fun e => is_teardown_event e = false) front
       | Panic v c =>
           recovered result = Some v
           /\ httpCtx (state_of result) = c
           /\ error_logs evs = [] /\ error_count evs = 0%Z
           /\ access_logs evs = []
           /\ (puts ResponsePool evs = 0 /\ puts ContextPool evs = 0)
       end.
Proof.
  intros Hreach p result. subst p result.
  destruct (request_summary _ _ handle _ _ _ _ _ _ Hreach)
    as (calls & o & evs & Hrun & Ht & _ & Hph & Hrc & _ & Hrec).
  rewrite (pipeline_run_sound _ _ _ _ _ Hrun).
  destruct (after_callbacks_read o s2 calls) as [-> ->].
  exists evs. split; [exact Ht|]. split; [exact Hph|]. split; [exact Hrc|].
  destruct (recovery_outcome server (panic_of o) (context_of o)).
  - by destruct Hrec as (? & ? & ? & ? & ? & _ & ?).
  - by destruct Hrec as (? & ? & ? & ? & ? & ?).
Qed.

(** X6. Once set-up has succeeded, whatever the hijack attempt, the hooks
    and the handler do, the request counter has been raised by exactly 1
    when the wrapper is left. The wrapper returns normally, with one
    exception: a panic leaves it only when the panic handler, called for a
    panic [v] of the pipeline, itself panics. *)
Theorem request_is_counted_once_on_every_outcome
    env server handle isHijack w r params s s1 :
  setup env server w r params s = Returned tt s1 ->
  let result := wrapRouterHandle env server handle isHijack w r params s in
  exists evs,
    trace (state_of result) = trace s ++ evs
    /\ request_count evs = 1%Z
    /\ (forall v', recovered result = Some v' ->
          exists handler v c c',
            ExceptionHandler (DotApp server) = Some handler
            /\ handler c v = Panic v' c'
            /\ panic_handler_calls evs = [v]).
Proof.
  intros Hsetup result. subst result.
  destruct (hijackStep_cases isHijack w s1) as [[s2 Hh]|(-> & e & He)].
  - assert (reaches_pipeline env server isHijack w r params s s2) as Hreach
      by (by exists s1).
    destruct (request_summary_of_pipeline _ _ handle _ _ _ _ _ _ Hreach)
      as (evs & Ht & Hph & Hrc & Hrec).
    exists evs. split; [exact Ht|]. split; [exact Hrc|].
    intros v' Hv'. unfold recovery_outcome in Hrec.
    destruct (recovered (pipeline server handle s2)) as [v|].
    + destruct (ExceptionHandler (DotApp server)) as [handler|].
      * destruct (handler (httpCtx (state_of (pipeline server handle s2))) v)
          as [c|v0 c] eqn:E.
        -- destruct Hrec as (Hr & _). congruence.
        -- destruct Hrec as (Hr & _). exists handler, v, (httpCtx (state_of (pipeline server handle s2))), c.
           split; [done|]. split; [|done]. rewrite E. congruence.
      * destruct Hrec as (Hr & _). congruence.
    + destruct Hrec as (Hr & _). congruence.
  - destruct (setup_events_exact _ _ _ _ _ _ _ Hsetup) as (cookies & Ht & _).
    unfold wrapRouterHandle, mbind, M_bind. rewrite Hsetup.
    rewrite (hijackStep_fails _ _ _ He). cbn.
    eexists. split; [by rewrite Ht, <- !app_assoc|]. split; [|done].
    rewrite !request_count_app. destruct (cookies_quiet cookies) as (_ & -> & _).
    by destruct (EnabledGzip (ServerConfig server)).
Qed.
Lemma counted_once_witness :
  exists evs,
    trace (state_of
      (wrapRouterHandle Sample.env
         (Sample.server
            (Sample.application (Sample.two_modules Sample.returns)
               (Some Sample.handler_fails))
            true false false)
         (Sample.panics "boom") false Sample.writer Sample.plain_request []
         Sample.stale))
    = trace Sample.stale ++ evs
    /\ request_count evs = 1%Z.
Proof.
  edestruct (request_is_counted_once_on_every_outcome Sample.env
      (Sample.server
         (Sample.application (Sample.two_modules Sample.returns)
            (Some Sample.handler_fails))
         true false false)
      (Sample.panics "boom") false Sample.writer Sample.plain_request []
      Sample.stale) as (evs & H1 & H2 & _).
  - reflexivity.
  - by exists evs.
Defined.


(** X7. A panic with value [v] anywhere in the pipeline (pre-hook,
    handler or post-hook): the panic handler, if registered, is called
    exactly once, with [v]. If it returns (or none is registered), the
    wrapper returns normally, exactly one error record is logged, built
    from the context the panic handler left, the error counter is raised
    by exactly 1, and the context is released afterwards. If the panic
    handler panics, its panic leaves the wrapper and no error is logged or
    counted. *)
Theorem any_pipeline_panic_reaches_the_panic_handler
    env server handle isHijack w r params s s2 v :
  reaches_pipeline env server isHijack w r params s s2 ->
  recovered (pipeline server handle s2) = Some v ->
  let result := wrapRouterHandle env server handle isHijack w r params s in
  exists evs,
    trace (state_of result) = trace s ++ evs
    /\ panic_handler_calls evs =
         match ExceptionHandler (DotApp server) with
         | Some _ => [v]
         | None => []
         end
    /\ match recovery_outcome server (Some v)
               (httpCtx (state_of (pipeline server handle s2))) with
       | Return c =>
           recovered result = None
           /\ httpCtx (state_of result) = Context_release env c
           /\ error_logs evs = [error_record env c v]
           /\ error_count evs = 1%Z
       | Panic v' c =>
           recovered result = Some v'
           /\ error_logs evs = []
           /\ error_count evs = 0%Z
       end.
Proof.
  intros Hreach Hv result. subst result.
  destruct (request_summary_of_pipeline _ _ handle _ _ _ _ _ _ Hreach)
    as (evs & Ht & Hph & _ & Hrec).
  rewrite Hv in Hph, Hrec.
  exists evs. split; [exact Ht|]. split; [exact Hph|].
  destruct (recovery_outcome server (Some v)
              (httpCtx (state_of (pipeline server handle s2)))).
  - by destruct Hrec as (? & ? & ? & ? & _).
  - by destruct Hrec as (? & _ & ? & ? & _).
Qed.
Lemma any_panic_witness :
  let result :=
    wrapRouterHandle Sample.env
      (Sample.server
         (Sample.application
            [ {| OnBeginRequest := None;
                 OnEndRequest := Some (Sample.panics "late") |} ]
            (Some Sample.answer_500))
         false false false)
      Sample.returns false Sample.writer Sample.plain_request []
      Sample.stale in
  exists evs,
    recovered result = None
    /\ trace (state_of result) = trace Sample.stale ++ evs
    /\ panic_handler_calls evs = ["late"]
    /\ length (error_logs evs) = 1
    /\ error_count evs = 1%Z.
Proof.
  intros result.
  edestruct (any_pipeline_panic_reaches_the_panic_handler Sample.env
      (Sample.server
         (Sample.application
            [ {| OnBeginRequest := None;
                 OnEndRequest := Some (Sample.panics "late") |} ]
            (Some Sample.answer_500))
         false false false)
      Sample.returns false Sample.writer Sample.plain_request []
      Sample.stale) as (evs & H1 & H2 & (H3 & _ & H4 & H5)).
  - eexists. split; reflexivity.
  - reflexivity.
  - exists evs. split; [exact H3|]. split; [exact H1|]. split; [exact H2|].
    rewrite H4. split; [reflexivity | exact H5].
Defined.


(** X8. When nothing in the pipeline panics, the wrapper returns
    normally, the panic handler is not called, no error record is logged
    and the error counter is not raised; the context the wrapper leaves is
    the pipeline's, released. *)
Theorem quiet_pipeline_reports_no_error
    env server handle isHijack w r params s s2 :
  reaches_pipeline env server isHijack w r params s s2 ->
  recovered (pipeline server handle s2) = None ->
  exists s' evs,
    wrapRouterHandle env server handle isHijack w r params s = Returned tt s'
    /\ trace s' = trace s ++ evs
    /\ httpCtx s' =
         Context_release env (httpCtx (state_of (pipeline server handle s2)))
    /\ panic_handler_calls evs = []
    /\ error_logs evs = []
    /\ error_count evs = 0%Z.
Proof.
  intros Hreach Hv.
  destruct (request_summary_of_pipeline _ _ handle _ _ _ _ _ _ Hreach)
    as (evs & Ht & Hph & _ & Hrec).
  rewrite Hv in Hph, Hrec. cbn in Hrec.
  destruct Hrec as (Hr & Hc & Hl & Hn & _).
  destruct (wrapRouterHandle env server handle isHijack w r params s)
    as [[] s'|v s']; [|done].
  by exists s', evs.
Qed.
Lemma quiet_pipeline_witness :
  exists s' evs,
    wrapRouterHandle Sample.env
      (Sample.server
         (Sample.application (Sample.two_modules Sample.returns)
            (Some Sample.answer_500))
         false false false)
      Sample.returns false Sample.writer Sample.plain_request []
      Sample.stale = Returned tt s'
    /\ trace s' = trace Sample.stale ++ evs
    /\ panic_handler_calls evs = []
    /\ error_logs evs = []
    /\ error_count evs = 0%Z.
Proof.
  edestruct (quiet_pipeline_reports_no_error Sample.env
      (Sample.server
         (Sample.application (Sample.two_modules Sample.returns)
            (Some Sample.answer_500))
         false false false)
      Sample.returns false Sample.writer Sample.plain_request []
      Sample.stale) as (s' & evs & H1 & H2 & _ & H3 & H4 & H5).
  - eexists. split; reflexivity.
  - reflexivity.
  - by exists s', evs.
Defined.


(** X9. A request that reaches the pipeline writes exactly one access-log
    record when the deferred function runs to its end, and it is the
    record of the context recovery left, before its release: after a panic
    it shows what the panic handler set. When the panic handler panics, no
    access-log record is written. *)
Theorem one_access_record_of_the_recovered_context
    env server handle isHijack w r params s s2 :
  reaches_pipeline env server isHijack w r params s s2 ->
  let p := pipeline server handle s2 in
  let result := wrapRouterHandle env server handle isHijack w r params s in
  exists evs,
    trace (state_of result) = trace s ++ evs
    /\ match recovery_outcome server (recovered p) (httpCtx (state_of p)) with
       | Return c =>
           recovered result = None
           /\ access_logs evs = [access_record env c]
       | Panic v _ =>
           recovered result = Some v
           /\ access_logs evs = []
       end.
Proof.
  intros Hreach p result. subst p result.
  destruct (request_summary_of_pipeline _ _ handle _ _ _ _ _ _ Hreach)
    as (evs & Ht & _ & _ & Hrec).
  exists evs. split; [exact Ht|].
  destruct (recovery_outcome server (recovered (pipeline server handle s2))
              (httpCtx (state_of (pipeline server handle s2)))).
  - by destruct Hrec as (? & _ & _ & _ & ? & _).
  - by destruct Hrec as (? & _ & _ & _ & ? & _).
Qed.
Lemma access_record_witness :
  let result :=
    wrapRouterHandle Sample.env
      (Sample.server
         (Sample.application (Sample.two_modules Sample.returns)
            (Some Sample.answer_500))
         false false false)
      (Sample.panics "boom") false Sample.writer Sample.plain_request []
      Sample.stale in
  exists evs,
    trace (state_of result) = trace Sample.stale ++ evs
    /\ recovered result = None
    /\ length (access_logs evs) = 1.
Proof.
  intros result.
  eassert (reaches_pipeline Sample.env
      (Sample.server
         (Sample.application (Sample.two_modules Sample.returns)
            (Some Sample.answer_500))
         false false false)
      false Sample.writer Sample.plain_request [] Sample.stale _) as Hreach
    by (eexists; split; reflexivity).
  destruct (one_access_record_of_the_recovered_context _ _
              (Sample.panics "boom") _ _ _ _ _ _ Hreach) as (evs & H1 & (H2 & H3)).
  exists evs. split; [exact H1|]. split; [exact H2|]. by rewrite H3.
Defined.


(** X10. A request that reaches the pipeline, and whose panic handler is
    not called or returns, ends with: the gzip writer closed (if and only
    if gzip is enabled), the response put back, the context released, the
    context put back, in this order; none of these calls happens earlier.
    When the panic handler panics, none of these calls happens at all. *)
Theorem teardown_comes_last_and_only_once
    env server handle isHijack w r params s s2 :
  reaches_pipeline env server isHijack w r params s s2 ->
  let p := pipeline server handle s2 in
  let result := wrapRouterHandle env server handle isHijack w r params s in
  exists evs,
    trace (state_of result) = trace s ++ evs
    /\ match recovery_outcome server (recovered p) (httpCtx (state_of p)) with
       | Return _ =>
           exists front,
             evs = front ++ teardown server
             /\ Forall (fun e => is_teardown_event e = false) front
       | Panic _ _ =>
           Forall (fun e => is_teardown_event e = false) evs
       end.
Proof.
  intros Hreach p result. subst p result.
  destruct (request_trace _ _ handle _ _ _ _ _ _ Hreach)
    as (before & calls & o & Hrun & Hpipe & Ht2 & -> & _ & _ & Hbefore).
  rewrite Hpipe. destruct (after_callbacks_read o s2 calls) as [-> ->].
  destruct (panic_handler_call_read server (panic_of o))
    as (_ & _ & _ & _ & _ & _ & _ & _ & Hq & _).
  destruct (recovery_outcome server (panic_of o) (context_of o)) as [c|v c].
  - eexists. split; [reflexivity|].
    exists (before ++ map Invoke calls
            ++ panic_handler_call server (panic_of o)
            ++ error_report env (panic_of o) c
            ++ [LoggerLog (access_record env c) LogTarget_HttpRequest LogLevel_Debug]).
    split; [by rewrite <- !app_assoc|].
    destruct (error_report_read env (panic_of o) c)
      as (_ & _ & _ & _ & _ & _ & _ & _ & Hq' & _).
    rewrite !Forall_app. repeat split; try done.
    + apply invocations_not_teardown.
    + by repeat constructor.
  - eexists. split; [reflexivity|].
    rewrite !Forall_app. repeat split; try done.
    apply invocations_not_teardown.
Qed.
Lemma teardown_witness :
  exists front,
    trace (state_of
      (wrapRouterHandle Sample.env
         (Sample.server
            (Sample.application (Sample.two_modules Sample.returns) None)
            true false false)
         (Sample.panics "boom") false Sample.writer Sample.plain_request []
         Sample.stale))
    = trace Sample.stale
      ++ front ++ [GzipClose; PoolPut ResponsePool; ContextRelease;
                   PoolPut ContextPool]
    /\ Forall (fun e => is_teardown_event e = false) front.
Proof.
  eassert (reaches_pipeline Sample.env
      (Sample.server (Sample.application (Sample.two_modules Sample.returns) None)
         true false false)
      false Sample.writer Sample.plain_request [] Sample.stale _) as Hreach
    by (eexists; split; reflexivity).
  destruct (teardown_comes_last_and_only_once _ _
              (Sample.panics "boom") _ _ _ _ _ _ Hreach)
    as (evs & H1 & (front & H2 & H3)).
  exists front. split; [|exact H3]. rewrite H1, H2. reflexivity.
Defined.


(** X11. When a pre-hook panics with [v], the callbacks invoked are those
    of a run of the pre-hooks that ends with that panic: registered
    pre-hooks in registration order, each on the context its predecessor
    left, up to and including the one that panicked, followed only by the
    panic handler (if registered), called with [v]. Neither the user
    handler nor any post-hook runs. *)
Theorem pre_hook_panic_skips_handler_and_post_hooks
    env server handle isHijack w r params s s2 s3 v :
  reaches_pipeline env server isHijack w r params s s2 ->
  runOnBeginRequest 0 (Modules (DotApp server)) s2 = Panicked v s3 ->
  let result := wrapRouterHandle env server handle isHijack w r params s in
  exists pre evs,
    hooks_run OnBeginRequest OnBeginRequestOf 0 (Modules (DotApp server))
      (httpCtx s2) pre (Panic v (httpCtx s3))
    /\ trace (state_of result) = trace s ++ evs
    /\ callbacks_of evs =
         pre ++ match ExceptionHandler (DotApp server) with
                | Some _ => [ExceptionHandlerWith v]
                | None => []
                end
    /\ pre `prefix_of` begin_calls 0 (Modules (DotApp server))
    /\ (exists front k h c0 c',
          pre = front ++ [OnBeginRequestOf k]
          /\ OnBeginRequest <$> Modules (DotApp server) !! k = Some (Some h)
          /\ h c0 = Panic v c')
    /\ Forall (fun who => exists j, who = OnBeginRequestOf j) pre.
Proof.
  intros Hreach Hbegin result. subst result.
  destruct (runOnBeginRequest_panicked _ _ _ _ _ Hbegin) as (pre & Hpre).
  destruct (request_summary _ _ handle _ _ _ _ _ _ Hreach)
    as (calls & o & evs & Hrun & Ht & Hc & Hph & _).
  destruct (pipeline_run_unique _ _ _ _ _ _ _ Hrun
              (pre_hook_panics _ _ _ _ _ _ Hpre)) as [-> ->].
  cbn [panic_of] in Hph.
  destruct (pre_hooks_run_in_order _ _ _ _ _ Hpre) as [Hprefix _].
  exists pre, evs. split; [exact Hpre|]. split; [exact Ht|]. split.
  { rewrite Hc, Hph. by destruct (ExceptionHandler (DotApp server)). }
  split; [exact Hprefix|]. split.
  - destruct (hooks_run_stops_at_the_panic _ _ _ _ _ _ _ _ Hpre)
      as (front & k & h & c0 & -> & Hk & Hh).
    by exists front, k, h, c0, (httpCtx s3).
  - eapply Forall_prefix; [exact Hprefix|]. apply begin_calls_are_pre_hooks.
Qed.
Lemma pre_hook_panic_witness :
  exists pre evs,
    trace (state_of
      (wrapRouterHandle Sample.env
         (Sample.server
            (Sample.application (Sample.two_modules (Sample.panics "denied"))
               (Some Sample.answer_500))
            false false false)
         Sample.returns false Sample.writer Sample.plain_request []
         Sample.stale))
    = trace Sample.stale ++ evs
    /\ callbacks_of evs = pre ++ [ExceptionHandlerWith "denied"]
    /\ pre `prefix_of` [OnBeginRequestOf 0].
Proof.
  edestruct (pre_hook_panic_skips_handler_and_post_hooks Sample.env
      (Sample.server
         (Sample.application (Sample.two_modules (Sample.panics "denied"))
            (Some Sample.answer_500))
         false false false)
      Sample.returns false Sample.writer Sample.plain_request []
      Sample.stale) as (pre & evs & _ & H1 & H2 & H3 & _).
  - eexists. split; reflexivity.
  - reflexivity.
  - exists pre, evs. split; [exact H1|]. split; [exact H2 | exact H3].
Defined.


(** ** Set-up returns *)

(** X16. With sessions disabled, set-up returns normally whatever the
    gzip setting: the compressor is built at the constant level 9, which
    [gzip.NewWriterLevel] accepts, so the panic of line 201 is never
    raised. *)
Theorem setup_returns_when_sessions_are_disabled env server w r params s :
  EnabledSession (SessionConfig server) = false ->
  exists s1,
    setup env server w r params s = Returned tt s1
    /\ res_writer s1 = (if EnabledGzip (ServerConfig server)
                        then GzipResponseWriter w else RawWriter w).
Proof.
  intros Hoff.
  unfold setup, acquire, gzipStep, sessionStep. rewrite Hoff.
  rewrite gzip_NewWriterLevel_default.
  destruct (EnabledGzip (ServerConfig server)); unfold_M; cbn;
    eexists; split; reflexivity.
Qed.
Lemma setup_returns_witness :
  exists s1,
    setup Sample.env (Sample.server (Sample.application [] None) true false false)
      Sample.writer Sample.plain_request [] Sample.stale = Returned tt s1
    /\ res_writer s1 = GzipResponseWriter Sample.writer.
Proof.
  eapply (setup_returns_when_sessions_are_disabled Sample.env
            (Sample.server (Sample.application [] None) true false false)
            Sample.writer Sample.plain_request [] Sample.stale).
  reflexivity.
Defined.

(** ** wrapWebSocketHandle *)

(** X12. A WebSocket handler that panics (leaving the context in
    WebSocket mode): the wrapper returns normally, logs one error record
    built from the opening request, and raises the error counter by 1. The
    request counter is not raised, the application's panic handler is not
    called even when one is registered, the context goes back to its pool
    once and the response pool is not touched. *)
Theorem websocket_handler_panic_is_contained_but_not_counted
    env Sprintln server handle request s v c :
  handle (webSocketContext env request) = Panic v c ->
  IsWebSocket c = true ->
  exists s' evs,
    wrapWebSocketHandle env Sprintln server handle request s = Returned tt s'
    /\ trace s' = trace s ++ evs
    /\ request_count evs = 0%Z
    /\ error_count evs = 1%Z
    /\ error_logs evs =
         [jsonutil_GetJsonString env
            {| RequestUrl := http.RequestURI request;
               HttpHeader := Sprintln (http.Header request);
               HttpBody := exception_CatchError env "httpserver::WebsocketHandle"
                             LogTarget_HttpServer v |}]
    /\ panic_handler_calls evs = []
    /\ (gets ContextPool evs = 1 /\ puts ContextPool evs = 1
        /\ gets ResponsePool evs = 0 /\ puts ResponsePool evs = 0).
Proof.
  intros Hpanic Hws.
  unfold wrapWebSocketHandle, defer, webSocketFinalizer, invoke.
  unfold_M. cbn. rewrite Hpanic. cbn. rewrite Hws. cbn.
  rewrite <- !app_assoc. cbn.
  eexists _, _. split; [reflexivity|]. cbn. split; [reflexivity|].
  by repeat split.
Qed.
Lemma websocket_panic_witness :
  exists s' evs,
    wrapWebSocketHandle Sample.env (fun _ => "")
      (Sample.server (Sample.application [] (Some Sample.answer_500))
         false false false)
      (Sample.panics "boom") (Sample.connection "Upgrade") Sample.stale
    = Returned tt s'
    /\ trace s' = trace Sample.stale ++ evs
    /\ request_count evs = 0%Z
    /\ error_count evs = 1%Z
    /\ panic_handler_calls evs = [].
Proof.
  edestruct (websocket_handler_panic_is_contained_but_not_counted Sample.env
      (fun _ => "")
      (Sample.server (Sample.application [] (Some Sample.answer_500))
         false false false)
      (Sample.panics "boom") (Sample.connection "Upgrade") Sample.stale)
    as (s' & evs & H1 & H2 & H3 & H4 & _ & H5 & _).
  - reflexivity.
  - reflexivity.
  - by exists s', evs.
Defined.


(** X13. A WebSocket handler that returns (leaving the context in
    WebSocket mode): the calls are, in order, the context taken from the
    pool, the handler, the request counted, one access record with status
    ["0"] and response length ["0"], the context put back. *)
Theorem websocket_conversation_is_counted_after_the_handler
    env Sprintln server handle request s c :
  handle (webSocketContext env request) = Return c ->
  IsWebSocket c = true ->
  exists s',
    wrapWebSocketHandle env Sprintln server handle request s = Returned tt s'
    /\ httpCtx s' = c
    /\ trace s' =
         trace s
         ++ [PoolGet ContextPool; Invoke UserHandle; AddRequestCount 1;
             LoggerLog
               (Url c +:+ " " +:+
                join_spaces [http.Method (Request c); RemoteIP c;
                             http.Proto (Request c); "0";
                             Int642String (http.ContentLength (Request c)); "0";
                             Int642String (timetaken_ms env)])
               LogTarget_HttpRequest LogLevel_Debug;
             PoolPut ContextPool].
Proof.
  intros Hret Hws.
  unfold wrapWebSocketHandle, defer, webSocketFinalizer, invoke.
  unfold_M. cbn. rewrite Hret. cbn. rewrite Hws. cbn.
  rewrite <- !app_assoc. cbn.
  eexists. split; [reflexivity|]. cbn. split; [reflexivity|].
  by rewrite (logContext_fields_websocket _ _ Hws).
Qed.
Lemma websocket_return_witness :
  exists s',
    wrapWebSocketHandle Sample.env (fun _ => "")
      (Sample.server (Sample.application [] None) false false false)
      Sample.returns (Sample.connection "Upgrade") Sample.stale
    = Returned tt s'
    /\ trace s' =
         [PoolGet ContextPool; Invoke UserHandle; AddRequestCount 1;
          LoggerLog "/index GET 10.0.0.7:4711 HTTP/1.1 0 12 0 3"
            LogTarget_HttpRequest LogLevel_Debug;
          PoolPut ContextPool].
Proof.
  edestruct (websocket_conversation_is_counted_after_the_handler Sample.env
      (fun _ => "")
      (Sample.server (Sample.application [] None) false false false)
      Sample.returns (Sample.connection "Upgrade") Sample.stale)
    as (s' & H1 & _ & H2).
  - reflexivity.
  - reflexivity.
  - exists s'. split; [exact H1|]. rewrite H2. reflexivity.
Defined.


(** ** Session configuration *)

(** X14. [InitSessionManager] on a server without a manager, after
    [SetSessionConfig(storeConfig)]: the session manager is built from a
    store config with the [Maxlifetime], [StoreName] and [ServerIP] of
    [storeConfig]; it is stored when construction succeeds, and a failure
    is a panic with the error. [SetSessionConfig] leaves [EnabledSession]
    as it was. *)
Theorem InitSessionManager_uses_the_store_config_last_set
    NewDefaultSessionManager sessionConfig storeConfig :
  InitSessionManager NewDefaultSessionManager
    (SetSessionConfig sessionConfig storeConfig) None =
    match NewDefaultSessionManager
            {| session.Maxlifetime := session.Maxlifetime storeConfig;
               session.StoreName := session.StoreName storeConfig;
               session.ServerIP := session.ServerIP storeConfig |} with
    | inl manager => inl (Some manager)
    | inr err => inr err
    end
  /\ config.EnabledSession (SetSessionConfig sessionConfig storeConfig) =
       config.EnabledSession sessionConfig.
Proof. split; reflexivity. Qed.

(** X15. When [InitSessionManager] returns, the server has a session
    manager, and any later call keeps this manager, whatever the session
    configuration or the constructor's answer is then. *)
Theorem InitSessionManager_initialises_once
    NewDefaultSessionManager sessionConfig current result :
  InitSessionManager NewDefaultSessionManager sessionConfig current = inl result ->
  is_Some result
  /\ forall NewDefaultSessionManager' sessionConfig',
       InitSessionManager NewDefaultSessionManager' sessionConfig' result = inl result.
Proof.
  unfold InitSessionManager. destruct current as [m|].
  - intros [= <-]. split; [by eexists | done].
  - destruct (NewDefaultSessionManager _) as [m|err]; [|done].
    intros [= <-]. split; [by eexists | done].
Qed.
Lemma InitSessionManager_once_witness :
  InitSessionManager (fun _ => inr "no such store")
    {| config.EnabledSession := false; config.Timeout := 0;
       config.SessionMode := ""; config.ServerIP := "" |}
    (Some Sample.manager) = inl (Some Sample.manager).
Proof.
  eapply (InitSessionManager_initialises_once (fun _ => inl Sample.manager)
            {| config.EnabledSession := true; config.Timeout := 1800;
               config.SessionMode := "runtime"; config.ServerIP := "" |}
            None (Some Sample.manager)).
  reflexivity.
Defined.


